(** * The garbage collector's workers

    A shallow embedding of
    [pkg/controller/garbagecollector/garbage_collector.go]: the constructor
    [NewGarbageCollector], the reference classifier [classifyReferences], the
    delete worker's [processItem] and [processDeletingDependentsItem], and the
    orphan worker [attemptToOrphanWorker] with [orhpanDependents].

    The collector talks to an API server, a REST mapper and client pools.
    They are collaborators whose answers the collector cannot predict, so
    they enter the development as a record of oracles ([Collaborators]).
    Every request the collector sends is appended to a history kept in the
    state, and an oracle answers a request from the history of the requests
    sent before it: any deterministic server, however stateful, is an
    instance.  Work queues are rendered by the operations issued on them.
    Logging ([glog]) and the registration of rate-limiter metrics have no
    effect on control flow and are left out. *)

From Stdlib Require Import List String Bool Arith Lia Permutation.
Import ListNotations.
Local Open Scope string_scope.
Local Open Scope nat_scope.
Local Open Scope list_scope.

(** ** Data model *)

Module types.
(** [types.UID] is a string type. *)
Definition UID := string.
End types.

Module schema.
Record GroupVersionKind := {
  gvkGroup : string;
  gvkVersion : string;
  gvkKind : string
}.

Record GroupVersionResource := {
  Group : string;
  Version : string;
  Resource : string
}.

Definition eqb (a b : GroupVersionResource) : bool :=
  String.eqb (Group a) (Group b)
  && String.eqb (Version a) (Version b)
  && String.eqb (Resource a) (Resource b).
End schema.

Module errors.
(** The reason carried by an API status error; [Unknown] is also the
    reason of an error that is no status error, such as one made by
    [fmt.Errorf]. *)
Inductive StatusReason :=
| NotFound
| Conflict
| Forbidden
| ServerTimeout
| Unknown.

Record error := {
  reason : StatusReason;
  message : string
}.

(** [errors.IsNotFound] *)
Definition IsNotFound (err : error) : bool :=
  match reason err with
  | NotFound => true
  | _ => false
  end.

(** [fmt.Errorf], with the message already formatted. *)
Definition Errorf (msg : string) : error :=
  {| reason := Unknown; message := msg |}.
End errors.
Definition error : Type := errors.error.

Module metav1.
(** [metav1.OwnerReference]; the two [*bool] fields are options. *)
Record OwnerReference := {
  APIVersion : string;
  Kind : string;
  Name : string;
  UID : types.UID;
  Controller : option bool;
  BlockOwnerDeletion : option bool
}.

(** [metav1.APIResource], as far as the collector fills it in. *)
Record APIResource := {
  arName : string;
  arNamespaced : bool;
  arKind : string
}.

(** The part of the [metav1.Object] interface read through an accessor. *)
Record Object := {
  GetDeletionTimestamp : option string;
  GetFinalizers : list string
}.

Record TypeMeta := {
  tmAPIVersion : string;
  tmKind : string
}.
End metav1.

Module v1.
(** The part of [v1.ObjectMeta] that the collector sets. *)
Record ObjectMeta := {
  omNamespace : string;
  omUID : types.UID;
  omName : string
}.

Inductive DeletionPropagation :=
| DeletePropagationForeground
| DeletePropagationDefault.

(** Modelled from the spec: the constant [v1.FinalizerDeleteDependents],
    the "delete dependents" finalizer; its declaration is in [pkg/api/v1]. *)
Definition FinalizerDeleteDependents : string := "foregroundDeletion".

(** Modelled from the spec: the constant [v1.FinalizerOrphanDependents],
    the "orphan" finalizer; its declaration is in [pkg/api/v1]. *)
Definition FinalizerOrphanDependents : string := "orphan".
End v1.

Module metaonly.
Record MetadataOnlyObject := {
  TypeMeta : metav1.TypeMeta;
  ObjectMeta : v1.ObjectMeta
}.
End metaonly.

(** What the dynamic client hands back for an object: its UID and its owner
    references are read from it directly. *)
Record Unstructured := {
  GetUID : types.UID;
  GetOwnerReferences : list metav1.OwnerReference
}.

(** [objectReference] embeds an owner reference and adds the namespace. *)
Record objectReference := {
  OwnerReference : metav1.OwnerReference;
  Namespace : string
}.

(** The graph vertex.  [dependents] is a Go map used as a set; the list
    gives its members in the order one [range] visits them. *)
#[warnings="-register-all"]
Inductive node := Node {
  identity : objectReference;
  dependents : list node;
  deletingDependents : bool;
  beingDeleted : bool;
  owners : list metav1.OwnerReference
}.

Inductive eventType := addEvent | updateEvent | deleteEvent.

Record event := {
  evType : eventType;
  obj : metaonly.MetadataOnlyObject;
  oldObj : option metaonly.MetadataOnlyObject
}.

(** A monitor list-watches one resource and stamps the kind on what it
    delivers. *)
Record Controller := {
  monitorResource : schema.GroupVersionResource;
  monitorKind : schema.GroupVersionKind
}.

(** A patch body is a byte string. *)
Definition Patch := string.

(** ** Work queues and the absent-owner cache *)

(** The operations issued on a rate-limited work queue, oldest first. *)
Inductive queueOp (A : Type) :=
| Add (item : A)
| AddRateLimited (item : A)
| Done (item : A).
Arguments Add {A} item.
Arguments AddRateLimited {A} item.
Arguments Done {A} item.

Definition workqueue (A : Type) := list (queueOp A).

Module UIDCache.
(** Modelled from the spec: the UID cache of [uid_cache.go], a bounded LRU
    set of the UIDs of owners confirmed absent; the most recently used
    entry comes first and the last one is evicted when the bound is hit. *)
Record t := {
  maxSize : nat;
  entries : list types.UID
}.

Definition NewUIDCache (maxCacheEntries : nat) : t :=
  {| maxSize := maxCacheEntries; entries := [] |}.

Definition without (uid : types.UID) (l : list types.UID) : list types.UID :=
  filter (fun u => negb (String.eqb u uid)) l.

Definition Add (c : t) (uid : types.UID) : t :=
  {| maxSize := maxSize c;
     entries := firstn (maxSize c) (uid :: without uid (entries c)) |}.

Definition Has (c : t) (uid : types.UID) : bool :=
  existsb (String.eqb uid) (entries c).

(** A lookup that hits makes the entry the most recently used one. *)
Definition touch (c : t) (uid : types.UID) : t :=
  if Has c uid
  then {| maxSize := maxSize c; entries := uid :: without uid (entries c) |}
  else c.
End UIDCache.

(** ** Requests to the collaborators *)

Inductive call :=
| CallClientForGroupVersionKind (fqKind : schema.GroupVersionKind)
| CallMetaOnlyClientForGroupVersionKind (kind : schema.GroupVersionKind)
| CallApiResource (apiVersion kind : string) (namespaced : bool)
| CallKindFor (resource : schema.GroupVersionResource)
| CallResourceGet (resource : metav1.APIResource) (namespace name : string)
| CallGetObject (item : objectReference)
| CallPatchObject (item : objectReference) (patch : Patch)
| CallDeleteObject (item : objectReference) (policy : v1.DeletionPropagation)
| CallRemoveFinalizer (obj : node) (finalizer : string).

(** A request that only reads. *)
Definition isRead (c : call) : bool :=
  match c with
  | CallPatchObject _ _ | CallDeleteObject _ _ | CallRemoveFinalizer _ _ => false
  | _ => true
  end.

Definition isDelete (c : call) : bool :=
  match c with
  | CallDeleteObject _ _ => true
  | _ => false
  end.

Definition history := list call.

(** The collaborators of the collector: the client pools, the REST mapper
    and the helpers of the package that live in [graph.go], [patch.go] and
    [operations.go].  A Go result [(value, err)] with a pointer value is a
    pair of options; where the value is used only once [err] is known to be
    nil it is a sum. *)
Record Collaborators := {
  (** [schema.FromAPIVersionAndKind] *)
  FromAPIVersionAndKind : string -> string -> schema.GroupVersionKind;
  (** [gc.clientPool.ClientForGroupVersionKind]: the error, if any *)
  ClientForGroupVersionKind : history -> schema.GroupVersionKind -> option error;
  (** [gc.metaOnlyClientPool.ClientForGroupVersionKind] *)
  MetaOnlyClientForGroupVersionKind : history -> schema.GroupVersionKind -> option error;
  (** [gc.apiResource] *)
  apiResource : history -> string -> string -> bool -> metav1.APIResource + error;
  (** [gc.restMapper.KindFor] *)
  KindFor : history -> schema.GroupVersionResource -> schema.GroupVersionKind + error;
  (** [client.Resource(resource, namespace).Get(name)] *)
  ResourceGet : history -> metav1.APIResource -> string -> string ->
                option Unstructured * option error;
  (** [meta.Accessor] *)
  Accessor : Unstructured -> metav1.Object + error;
  (** [gc.getObject] *)
  getObject : history -> objectReference -> option Unstructured * option error;
  (** [gc.patchObject] *)
  patchObject : history -> objectReference -> Patch -> option Unstructured * option error;
  (** [gc.deleteObject] *)
  deleteObject : history -> objectReference -> v1.DeletionPropagation -> option error;
  (** [gc.removeFinalizer] *)
  removeFinalizer : history -> node -> string -> option error;
  (** [deleteOwnerRefPatch(dependentUID, ownerUIDs...)] *)
  deleteOwnerRefPatch : types.UID -> list types.UID -> Patch;
  (** [n.patchToUnblockOwnerReferences()] *)
  patchToUnblockOwnerReferences : node -> Patch + error;
  (** [n.blockingDependents()] *)
  blockingDependents : node -> list node;
  (** [objectReference.String()], used in error messages *)
  identityString : objectReference -> string;
  (** [utilerrors.NewAggregate(errs).Error()] *)
  aggregateError : list error -> string
}.

(** ** The collector's state *)

(** The fields of [GarbageCollector] that change, the queue of the graph
    builder, and the history of the requests sent so far. *)
Record State := {
  absentOwnerCache : UIDCache.t;
  attemptToDelete : workqueue node;
  attemptToOrphan : workqueue node;
  graphChanges : workqueue event;
  monitors : list Controller;
  calls : history
}.

Definition setCache (c : UIDCache.t) (s : State) : State :=
  {| absentOwnerCache := c;
     attemptToDelete := attemptToDelete s;
     attemptToOrphan := attemptToOrphan s;
     graphChanges := graphChanges s;
     monitors := monitors s;
     calls := calls s |}.

Definition setAttemptToDelete (q : workqueue node) (s : State) : State :=
  {| absentOwnerCache := absentOwnerCache s;
     attemptToDelete := q;
     attemptToOrphan := attemptToOrphan s;
     graphChanges := graphChanges s;
     monitors := monitors s;
     calls := calls s |}.

Definition setAttemptToOrphan (q : workqueue node) (s : State) : State :=
  {| absentOwnerCache := absentOwnerCache s;
     attemptToDelete := attemptToDelete s;
     attemptToOrphan := q;
     graphChanges := graphChanges s;
     monitors := monitors s;
     calls := calls s |}.

Definition setGraphChanges (q : workqueue event) (s : State) : State :=
  {| absentOwnerCache := absentOwnerCache s;
     attemptToDelete := attemptToDelete s;
     attemptToOrphan := attemptToOrphan s;
     graphChanges := q;
     monitors := monitors s;
     calls := calls s |}.

Definition setMonitors (m : list Controller) (s : State) : State :=
  {| absentOwnerCache := absentOwnerCache s;
     attemptToDelete := attemptToDelete s;
     attemptToOrphan := attemptToOrphan s;
     graphChanges := graphChanges s;
     monitors := m;
     calls := calls s |}.

Definition logCall (c : call) (s : State) : State :=
  {| absentOwnerCache := absentOwnerCache s;
     attemptToDelete := attemptToDelete s;
     attemptToOrphan := attemptToOrphan s;
     graphChanges := graphChanges s;
     monitors := monitors s;
     calls := calls s ++ [c] |}.

(** ** A state monad with panics *)

(** A run either returns a value and a new state, or panics, as Go does on
    a nil pointer dereference. *)
Inductive outcome (A : Type) : Type :=
| Returns (a : A) (s : State)
| Panics.
Arguments Returns {A} a s.
Arguments Panics {A}.

Definition M (A : Type) : Type := State -> outcome A.

Definition ret {A} (a : A) : M A := fun s => Returns a s.

Definition bind {A B} (m : M A) (k : A -> M B) : M B :=
  fun s =>
    match m s with
    | Returns a s' => k a s'
    | Panics => Panics
    end.

Definition panic {A} : M A := fun _ => Panics.

Definition modify (f : State -> State) : M unit := fun s => Returns tt (f s).

Declare Scope gc_scope.
Delimit Scope gc_scope with gc.
Notation "x <- m ;; k" := (bind m (fun x => k))
  (at level 61, m at next level, right associativity) : gc_scope.
Notation "m ;;; k" := (bind m (fun _ => k))
  (at level 61, right associativity) : gc_scope.
Local Open Scope gc_scope.

(** Send a request: the oracle answers from the history so far, and the
    request joins the history. *)
Definition request {A} (c : call) (answer : history -> A) : M A :=
  fun s => Returns (answer (calls s)) (logCall c s).

(** [gc.absentOwnerCache.Has(uid)] *)
Definition cacheHas (uid : types.UID) : M bool :=
  fun s => Returns (UIDCache.Has (absentOwnerCache s) uid)
                   (setCache (UIDCache.touch (absentOwnerCache s) uid) s).

(** [gc.absentOwnerCache.Add(uid)] *)
Definition cacheAdd (uid : types.UID) : M unit :=
  modify (fun s => setCache (UIDCache.Add (absentOwnerCache s) uid) s).

(** ** The collector *)

(** The promoted fields of the owner reference embedded in an
    [objectReference]. *)
Definition refUID (r : objectReference) : types.UID := metav1.UID (OwnerReference r).
Definition refName (r : objectReference) : string := metav1.Name (OwnerReference r).
Definition refKind (r : objectReference) : string := metav1.Kind (OwnerReference r).
Definition refAPIVersion (r : objectReference) : string :=
  metav1.APIVersion (OwnerReference r).

(** Modelled from the spec: [hasDeleteDependentsFinalizer] of
    [graph_builder.go]: the object carries the "delete dependents"
    finalizer. *)
Definition hasDeleteDependentsFinalizer (accessor : metav1.Object) : bool :=
  existsb (String.eqb v1.FinalizerDeleteDependents) (metav1.GetFinalizers accessor).

Definition ignoredResources : list schema.GroupVersionResource :=
  [ {| schema.Group := "extensions"; schema.Version := "v1beta1";
       schema.Resource := "replicationcontrollers" |};
    {| schema.Group := ""; schema.Version := "v1"; schema.Resource := "bindings" |};
    {| schema.Group := ""; schema.Version := "v1";
       schema.Resource := "componentstatuses" |};
    {| schema.Group := ""; schema.Version := "v1"; schema.Resource := "events" |};
    {| schema.Group := "authentication.k8s.io"; schema.Version := "v1beta1";
       schema.Resource := "tokenreviews" |};
    {| schema.Group := "authorization.k8s.io"; schema.Version := "v1beta1";
       schema.Resource := "subjectaccessreviews" |};
    {| schema.Group := "authorization.k8s.io"; schema.Version := "v1beta1";
       schema.Resource := "selfsubjectaccessreviews" |};
    {| schema.Group := "authorization.k8s.io"; schema.Version := "v1beta1";
       schema.Resource := "localsubjectaccessreviews" |} ].

(** [_, ok := ignoredResources[resource]] *)
Definition isIgnored (resource : schema.GroupVersionResource) : bool :=
  existsb (schema.eqb resource) ignoredResources.

Definition objectReferenceToMetadataOnlyObject (ref : objectReference)
  : metaonly.MetadataOnlyObject :=
  {| metaonly.TypeMeta :=
       {| metav1.tmAPIVersion := refAPIVersion ref; metav1.tmKind := refKind ref |};
     metaonly.ObjectMeta :=
       {| v1.omNamespace := Namespace ref;
          v1.omUID := refUID ref;
          v1.omName := refName ref |} |}.

Definition ownerRefsToUIDs (refs : list metav1.OwnerReference) : list types.UID :=
  map metav1.UID refs.

(** The result of one round of a loop whose body may return from the
    enclosing function. *)
Inductive classifyStep :=
| Next (solid dangling waiting : list metav1.OwnerReference)
| Return (solid dangling waiting : list metav1.OwnerReference) (err : error).

Definition classification : Type :=
  list metav1.OwnerReference * list metav1.OwnerReference
  * list metav1.OwnerReference * option error.

Section Collector.

Variable E : Collaborators.

(** *** NewGarbageCollector *)

Definition newGarbageCollector : State :=
  {| absentOwnerCache := UIDCache.NewUIDCache 500;
     attemptToDelete := [];
     attemptToOrphan := [];
     graphChanges := [];
     monitors := [];
     calls := [] |}.

Definition controllerFor (resource : schema.GroupVersionResource)
           (kind : schema.GroupVersionKind) (gc : State)
  : (Controller + error) * State :=
  let err := MetaOnlyClientForGroupVersionKind E (calls gc) kind in
  let gc := logCall (CallMetaOnlyClientForGroupVersionKind kind) gc in
  match err with
  | Some err => (inr err, gc)
  | None => (inl {| monitorResource := resource; monitorKind := kind |}, gc)
  end.

(** The loop over [deletableResources], a Go map used as a set: the list
    gives its keys in the order the [range] visits them.  The source binds
    the result of [controllerFor] as [controller] and appends [monitor];
    the value appended is taken to be the one just built. *)
Fixpoint monitorsFor (deletableResources : list schema.GroupVersionResource)
         (gc : State) : State * option error :=
  match deletableResources with
  | [] => (gc, None)
  | resource :: rest =>
    if isIgnored resource then monitorsFor rest gc
    else
      let kind := KindFor E (calls gc) resource in
      let gc := logCall (CallKindFor resource) gc in
      match kind with
      | inr err => (gc, Some err)
      | inl kind =>
        match controllerFor resource kind gc with
        | (inr err, gc) => (gc, Some err)
        | (inl monitor, gc) =>
          monitorsFor rest (setMonitors (monitors gc ++ [monitor]) gc)
        end
      end
  end.

Definition NewGarbageCollector (deletableResources : list schema.GroupVersionResource)
  : option State * option error :=
  match monitorsFor deletableResources newGarbageCollector with
  | (_, Some err) => (None, Some err)
  | (gc, None) => (Some gc, None)
  end.

(** *** classifyReferences *)

(** The body of the loop, for one reference. *)
Definition classifyReference (item : node) (reference : metav1.OwnerReference)
           (solid dangling waiting : list metav1.OwnerReference) : M classifyStep :=
  hit <- cacheHas (metav1.UID reference) ;;
  if hit then ret (Next solid (dangling ++ [reference]) waiting)
  else
    let fqKind :=
      FromAPIVersionAndKind E (metav1.APIVersion reference) (metav1.Kind reference) in
    cerr <- request (CallClientForGroupVersionKind fqKind)
                    (fun h => ClientForGroupVersionKind E h fqKind) ;;
    match cerr with
    | Some err => ret (Return solid dangling waiting err)
    | None =>
      let namespaced := negb (String.length (Namespace (identity item)) =? 0) in
      res <- request (CallApiResource (metav1.APIVersion reference)
                                      (metav1.Kind reference) namespaced)
                     (fun h => apiResource E h (metav1.APIVersion reference)
                                           (metav1.Kind reference) namespaced) ;;
      match res with
      | inr err => ret (Return solid dangling waiting err)
      | inl resource =>
        got <- request (CallResourceGet resource (Namespace (identity item))
                                        (metav1.Name reference))
                       (fun h => ResourceGet E h resource (Namespace (identity item))
                                             (metav1.Name reference)) ;;
        let owner := fst got in
        (* if err != nil { if !errors.IsNotFound(err) { return }; Add; append } *)
        afterErr <-
          match snd got with
          | Some err =>
            if negb (errors.IsNotFound err)
            then ret (inr err)
            else cacheAdd (metav1.UID reference) ;;;
                 ret (inl (dangling ++ [reference]))
          | None => ret (inl dangling)
          end ;;
        match afterErr with
        | inr err => ret (Return solid dangling waiting err)
        | inl dangling =>
          (* owner.GetUID(): a nil owner is dereferenced *)
          match owner with
          | None => panic
          | Some owner =>
            if negb (String.eqb (GetUID owner) (metav1.UID reference))
            then cacheAdd (metav1.UID reference) ;;;
                 ret (Next solid (dangling ++ [reference]) waiting)
            else
              match Accessor E owner with
              | inr err => ret (Return solid dangling waiting err)
              | inl ownerAccessor =>
                if (match metav1.GetDeletionTimestamp ownerAccessor with
                    | Some _ => true
                    | None => false
                    end)
                   && hasDeleteDependentsFinalizer ownerAccessor
                then ret (Next solid dangling (waiting ++ [reference]))
                else ret (Next (solid ++ [reference]) dangling waiting)
              end
          end
        end
      end
    end.

Fixpoint classifyFrom (item : node) (latestReferences : list metav1.OwnerReference)
         (solid dangling waiting : list metav1.OwnerReference) : M classification :=
  match latestReferences with
  | [] => ret (solid, dangling, waiting, None)
  | reference :: rest =>
    step <- classifyReference item reference solid dangling waiting ;;
    match step with
    | Next solid dangling waiting => classifyFrom item rest solid dangling waiting
    | Return solid dangling waiting err => ret (solid, dangling, waiting, Some err)
    end
  end.

Definition classifyReferences (item : node)
           (latestReferences : list metav1.OwnerReference) : M classification :=
  classifyFrom item latestReferences [] [] [].

(** *** processItem *)

Definition generateVirtualDeleteEvent (identity : objectReference) : M unit :=
  let event := {| evType := deleteEvent;
                  obj := objectReferenceToMetadataOnlyObject identity;
                  oldObj := None |} in
  modify (fun s => setGraphChanges (graphChanges s ++ [Add event]) s).

(** process item that's waiting for its dependents to be deleted *)
Definition processDeletingDependentsItem (item : node) : M (option error) :=
  let blockingDependents := blockingDependents E item in
  if List.length blockingDependents =? 0
  then request (CallRemoveFinalizer item v1.FinalizerDeleteDependents)
               (fun h => removeFinalizer E h item v1.FinalizerDeleteDependents)
  else
    modify (fun s =>
              setAttemptToDelete
                (attemptToDelete s
                 ++ map Add (filter (fun dep => negb (deletingDependents dep))
                                    blockingDependents)) s) ;;;
    ret None.

(** The scan of [item.dependents] in the "waiting" case: [Some err] when
    the body returns [err] from [processItem], [None] when the loop ends,
    by [break] or by exhaustion. *)
Fixpoint unblockOwnerReferences (item : node) (deps : list node) : M (option error) :=
  match deps with
  | [] => ret None
  | dep :: rest =>
    if deletingDependents dep
    then
      match patchToUnblockOwnerReferences E item with
      | inr err => ret (Some err)
      | inl patch =>
        res <- request (CallPatchObject (identity item) patch)
                       (fun h => patchObject E h (identity item) patch) ;;
        ret (snd res)
      end
    else unblockOwnerReferences item rest
  end.

Definition processItem (item : node) : M (option error) :=
  if beingDeleted item && negb (deletingDependents item) then ret None
  else
    got <- request (CallGetObject (identity item))
                   (fun h => getObject E h (identity item)) ;;
    match snd got with
    | Some err =>
      if errors.IsNotFound err
      then generateVirtualDeleteEvent (identity item) ;;; ret None
      else ret (Some err)
    | None =>
      match fst got with
      | None => panic
      | Some latest =>
        if negb (String.eqb (GetUID latest) (refUID (identity item)))
        then generateVirtualDeleteEvent (identity item) ;;; ret None
        else if deletingDependents item
        then processDeletingDependentsItem item
        else
          let ownerReferences := GetOwnerReferences latest in
          if List.length ownerReferences =? 0 then ret None
          else
            cl <- classifyReferences item ownerReferences ;;
            match cl with
            | (_, _, _, Some err) => ret (Some err)
            | (solid, dangling, waiting, None) =>
              if negb (List.length solid =? 0)
              then
                let patch :=
                  deleteOwnerRefPatch E (refUID (identity item))
                    (ownerRefsToUIDs dangling ++ ownerRefsToUIDs waiting) in
                res <- request (CallPatchObject (identity item) patch)
                               (fun h => patchObject E h (identity item) patch) ;;
                ret (snd res)
              else if negb (List.length waiting =? 0)
                      && negb (List.length (dependents item) =? 0)
              then
                err <- unblockOwnerReferences item (dependents item) ;;
                match err with
                | Some err => ret (Some err)
                | None =>
                  request (CallDeleteObject (identity item)
                                            v1.DeletePropagationForeground)
                          (fun h => deleteObject E h (identity item)
                                                 v1.DeletePropagationForeground)
                end
              else
                request (CallDeleteObject (identity item) v1.DeletePropagationDefault)
                        (fun h => deleteObject E h (identity item)
                                               v1.DeletePropagationDefault)
            end
      end
    end.

(** The worker takes the answer [(item, quit)] of the queue's [Get]; items
    of the queue are nodes.  [Done] is deferred. *)
Definition attemptToDeleteWorker (item : node) (quit : bool) : M unit :=
  if quit then ret tt
  else
    err <- processItem item ;;
    match err with
    | Some _ =>
      modify (fun s => setAttemptToDelete (attemptToDelete s ++ [AddRateLimited item]) s)
    | None => ret tt
    end ;;;
    modify (fun s => setAttemptToDelete (attemptToDelete s ++ [Done item]) s).

(** *** The orphan worker *)

Fixpoint orphanEach (owner : objectReference) (dependents : list node)
         (failedDependents : list objectReference) (errorsSlice : list error)
  : M (list objectReference * list error) :=
  match dependents with
  | [] => ret (failedDependents, errorsSlice)
  | dependent :: rest =>
    let patch := deleteOwnerRefPatch E (refUID (identity dependent)) [refUID owner] in
    res <- request (CallPatchObject (identity dependent) patch)
                   (fun h => patchObject E h (identity dependent) patch) ;;
    match snd res with
    | Some err =>
      if negb (errors.IsNotFound err)
      then orphanEach owner rest failedDependents
             (errorsSlice
              ++ [errors.Errorf
                    ("orphaning " ++ identityString E (identity dependent)
                     ++ " failed with " ++ errors.message err)%string])
      else orphanEach owner rest failedDependents errorsSlice
    | None => orphanEach owner rest failedDependents errorsSlice
    end
  end.

Definition orhpanDependents (owner : objectReference) (dependents : list node)
  : M (option error) :=
  res <- orphanEach owner dependents [] [] ;;
  let failedDependents := fst res in
  let errorsSlice := snd res in
  if negb (List.length failedDependents =? 0)
  then ret (Some (errors.Errorf
                    ("failed to orphan dependents of owner "
                     ++ identityString E owner ++ ", got errors: "
                     ++ aggregateError E errorsSlice)%string))
  else ret None.

(** The queue is [gc.orphanQueue] in the worker and [attemptToOrphan] in
    the declaration of the struct. *)
Definition attemptToOrphanWorker (item : node) (quit : bool) : M unit :=
  if quit then ret tt
  else
    let owner := item in
    let dependents := dependents owner in
    err <- orhpanDependents (identity owner) dependents ;;
    match err with
    | Some _ =>
      modify (fun s => setAttemptToOrphan (attemptToOrphan s ++ [AddRateLimited item]) s)
    | None =>
      err <- request (CallRemoveFinalizer owner v1.FinalizerOrphanDependents)
                     (fun h => removeFinalizer E h owner v1.FinalizerOrphanDependents) ;;
      match err with
      | Some _ =>
        modify (fun s =>
                  setAttemptToOrphan (attemptToOrphan s ++ [AddRateLimited item]) s)
      | None => ret tt
      end
    end ;;;
    modify (fun s => setAttemptToOrphan (attemptToOrphan s ++ [Done item]) s).

End Collector.

(** ** The handlers of a monitor *)


Section Handlers.

(** [GetObjectKind().SetGroupVersionKind(kind)] on a metadata-only object;
    the method is declared with the object's type. *)
Variable SetGroupVersionKind :
  schema.GroupVersionKind -> metaonly.MetadataOnlyObject -> metaonly.MetadataOnlyObject.





End Handlers.

(** ** GraphHasUID *)

Section GraphIndex.

(** [gc.dependencyGraphBuilder.uidToNode.Read], the lookup of the graph's
    index. *)
Variable Read : types.UID -> option node.

Fixpoint GraphHasUID (UIDs : list types.UID) : bool :=
  match UIDs with
  | [] => false
  | u :: rest =>
    match Read u with
    | Some _ => true
    | None => GraphHasUID rest
    end
  end.

End GraphIndex.

(** ** What one run of [processItem] may change on the server *)

(** The requests other than reads that one call of [processItem] sends,
    all of them about the item itself. *)
Inductive decision (item : node) : list call -> Prop :=
| Nothing : decision item []
| PatchOnly (patch : Patch) :
    decision item [CallPatchObject (identity item) patch]
| PatchThenDelete (patch : Patch) :
    decision item [CallPatchObject (identity item) patch;
                   CallDeleteObject (identity item) v1.DeletePropagationForeground]
| DeleteOnly (policy : v1.DeletionPropagation) :
    decision item [CallDeleteObject (identity item) policy]
| FinalizerOnly :
    decision item [CallRemoveFinalizer item v1.FinalizerDeleteDependents].

(** Whether every [Get] of an owner among the requests [sent], sent after
    the requests [before], was answered without an error. *)
Fixpoint ownersFound (E : Collaborators) (before : history) (sent : list call) : bool :=
  match sent with
  | [] => true
  | c :: rest =>
    match c with
    | CallResourceGet resource namespace name =>
      match snd (ResourceGet E before resource namespace name) with
      | None => true
      | Some _ => false
      end
    | _ => true
    end
    && ownersFound E (before ++ [c]) rest
  end.

(** The patch that [orhpanDependents] sends to one dependent. *)
Definition orphanPatch (E : Collaborators) (owner : objectReference) (dependent : node)
  : call :=
  CallPatchObject (identity dependent)
                  (deleteOwnerRefPatch E (refUID (identity dependent)) [refUID owner]).

(** ** A small cluster to run the collector on *)

Module Toy.

(** An object held by the toy server. *)
Record liveObject := {
  loName : string;
  loUID : types.UID;
  loOwnerReferences : list metav1.OwnerReference;
  loDeletionTimestamp : option string;
  loFinalizers : list string
}.

Definition byName (store : list liveObject) (name : string) : option liveObject :=
  find (fun o => String.eqb (loName o) name) store.

Definition byUID (store : list liveObject) (uid : types.UID) : option liveObject :=
  find (fun o => String.eqb (loUID o) uid) store.

Definition toUnstructured (o : liveObject) : Unstructured :=
  {| GetUID := loUID o; GetOwnerReferences := loOwnerReferences o |}.

Definition notFound (name : string) : error :=
  {| errors.reason := errors.NotFound; errors.message := (name ++ " not found")%string |}.

Definition conflict (name : string) : error :=
  {| errors.reason := errors.Conflict;
     errors.message := ("conflict on " ++ name)%string |}.

Definition noKind (name : string) : error :=
  errors.Errorf ("no kind is registered for " ++ name)%string.

Definition get (store : list liveObject) (name : string)
  : option Unstructured * option error :=
  match byName store name with
  | Some o => (Some (toUnstructured o), None)
  | None => (None, Some (notFound name))
  end.

Definition mentions (names : list string) (name : string) : bool :=
  existsb (String.eqb name) names.

(** Modelled from the spec: [blockingDependents] of [graph.go], the
    dependents whose owner reference to this node has the block flag set
    and who are not yet themselves being deleted. *)
Definition blockingDependentsOf (n : node) : list node :=
  filter (fun dep =>
            negb (beingDeleted dep)
            && existsb (fun owner =>
                          String.eqb (metav1.UID owner) (refUID (identity n))
                          && match metav1.BlockOwnerDeletion owner with
                             | Some b => b
                             | None => false
                             end)
                       (owners dep))
         (dependents n).

(** A server that holds [store], answers every patch of an object named in
    [conflicts] with a conflict, and has no kind for the resources named
    in [unmapped]. *)
Definition cluster (store : list liveObject) (conflicts unmapped : list string)
  : Collaborators :=
  {| FromAPIVersionAndKind := fun apiVersion kind =>
       {| schema.gvkGroup := ""; schema.gvkVersion := apiVersion;
          schema.gvkKind := kind |};
     ClientForGroupVersionKind := fun _ _ => None;
     MetaOnlyClientForGroupVersionKind := fun _ _ => None;
     apiResource := fun _ _ kind namespaced =>
       inl {| metav1.arName := kind; metav1.arNamespaced := namespaced;
              metav1.arKind := kind |};
     KindFor := fun _ resource =>
       if mentions unmapped (schema.Resource resource)
       then inr (noKind (schema.Resource resource))
       else inl {| schema.gvkGroup := schema.Group resource;
                   schema.gvkVersion := schema.Version resource;
                   schema.gvkKind := schema.Resource resource |};
     ResourceGet := fun _ _ _ name => get store name;
     Accessor := fun owner =>
       match byUID store (GetUID owner) with
       | Some o => inl {| metav1.GetDeletionTimestamp := loDeletionTimestamp o;
                          metav1.GetFinalizers := loFinalizers o |}
       | None => inl {| metav1.GetDeletionTimestamp := None;
                        metav1.GetFinalizers := [] |}
       end;
     getObject := fun _ ref => get store (refName ref);
     patchObject := fun _ ref _ =>
       if mentions conflicts (refName ref)
       then (None, Some (conflict (refName ref)))
       else match byName store (refName ref) with
            | Some o => (Some (toUnstructured o), None)
            | None => (None, Some (notFound (refName ref)))
            end;
     deleteObject := fun _ _ _ => None;
     removeFinalizer := fun _ _ _ => None;
     deleteOwnerRefPatch := fun dependentUID ownerUIDs =>
       ("drop " ++ String.concat "," ownerUIDs ++ " from " ++ dependentUID)%string;
     patchToUnblockOwnerReferences := fun n =>
       inl ("unblock " ++ refUID (identity n))%string;
     blockingDependents := blockingDependentsOf;
     identityString := refName;
     aggregateError := fun errs => String.concat "; " (map errors.message errs) |}.

Definition ownerRef (kind name uid : string) (block : bool) : metav1.OwnerReference :=
  {| metav1.APIVersion := "v1"; metav1.Kind := kind; metav1.Name := name;
     metav1.UID := uid; metav1.Controller := None;
     metav1.BlockOwnerDeletion := Some block |}.

Definition ident (kind name uid : string) : objectReference :=
  {| OwnerReference := ownerRef kind name uid false; Namespace := "default" |}.

(** A replica set [rs] owning a pod [pod]; the pod's reference blocks the
    deletion of its owner. *)
Definition rsRef : metav1.OwnerReference := ownerRef "ReplicaSet" "rs" "uid-rs" true.

Definition podNode : node :=
  {| identity := ident "Pod" "pod" "uid-pod";
     dependents := [];
     deletingDependents := false;
     beingDeleted := false;
     owners := [rsRef] |}.

Definition rsNode : node :=
  {| identity := ident "ReplicaSet" "rs" "uid-rs";
     dependents := [podNode];
     deletingDependents := false;
     beingDeleted := false;
     owners := [] |}.

Definition podObject : liveObject :=
  {| loName := "pod"; loUID := "uid-pod"; loOwnerReferences := [rsRef];
     loDeletionTimestamp := None; loFinalizers := [] |}.

Definition rsObject : liveObject :=
  {| loName := "rs"; loUID := "uid-rs"; loOwnerReferences := [];
     loDeletionTimestamp := None; loFinalizers := [] |}.

(** A reference to a replica set of the same name that is gone: the
    name was taken again, under another UID. *)
Definition staleRef : metav1.OwnerReference :=
  ownerRef "ReplicaSet" "rs" "uid-rs-old" true.

Definition podTwice : liveObject :=
  {| loName := "pod"; loUID := "uid-pod"; loOwnerReferences := [rsRef; staleRef];
     loDeletionTimestamp := None; loFinalizers := [] |}.

(** The replica set while it is deleted in the foreground. *)
Definition rsDeleting : liveObject :=
  {| loName := "rs"; loUID := "uid-rs"; loOwnerReferences := [];
     loDeletionTimestamp := Some "2017-01-01T00:00:00Z";
     loFinalizers := [v1.FinalizerDeleteDependents] |}.

(** A deployment [dep] owning the replica set. *)
Definition depRef : metav1.OwnerReference := ownerRef "Deployment" "dep" "uid-dep" true.

Definition depDeleting : liveObject :=
  {| loName := "dep"; loUID := "uid-dep"; loOwnerReferences := [];
     loDeletionTimestamp := Some "2017-01-01T00:00:00Z";
     loFinalizers := [v1.FinalizerDeleteDependents] |}.

Definition rsOwned : liveObject :=
  {| loName := "rs"; loUID := "uid-rs"; loOwnerReferences := [depRef];
     loDeletionTimestamp := None; loFinalizers := [] |}.

(** A pod that is itself waiting for its dependents, and the replica set
    that has it as a dependent and the deployment as an owner. *)
Definition podCascading : node :=
  {| identity := ident "Pod" "pod" "uid-pod";
     dependents := [];
     deletingDependents := true;
     beingDeleted := true;
     owners := [rsRef] |}.

Definition rsBetween : node :=
  {| identity := ident "ReplicaSet" "rs" "uid-rs";
     dependents := [podCascading];
     deletingDependents := false;
     beingDeleted := false;
     owners := [depRef] |}.

(** The replica set in foreground deletion, in the graph. *)
Definition rsCascading : node :=
  {| identity := ident "ReplicaSet" "rs" "uid-rs";
     dependents := [podNode];
     deletingDependents := true;
     beingDeleted := true;
     owners := [] |}.

(** A collector that has sent no request yet. *)
Definition idle : State := newGarbageCollector.

Definition events : schema.GroupVersionResource :=
  {| schema.Group := ""; schema.Version := "v1"; schema.Resource := "events" |}.

Definition pods : schema.GroupVersionResource :=
  {| schema.Group := ""; schema.Version := "v1"; schema.Resource := "pods" |}.

Definition widgets : schema.GroupVersionResource :=
  {| schema.Group := "example.com"; schema.Version := "v1";
     schema.Resource := "widgets" |}.

End Toy.

(** A server that behaves as [E] except that the reads of owners, the
    re-fetch of an item, or the removal of a finalizer answer with the given
    error, when one is given. *)
Definition failingCluster (E : Collaborators)
           (ownerGetErr getObjectErr removeFinalizerErr : option error) : Collaborators :=
  {| FromAPIVersionAndKind := FromAPIVersionAndKind E;
     ClientForGroupVersionKind := ClientForGroupVersionKind E;
     MetaOnlyClientForGroupVersionKind := MetaOnlyClientForGroupVersionKind E;
     apiResource := apiResource E;
     KindFor := KindFor E;
     ResourceGet := fun h resource namespace name =>
       match ownerGetErr with
       | Some err => (None, Some err)
       | None => ResourceGet E h resource namespace name
       end;
     Accessor := Accessor E;
     getObject := fun h ref =>
       match getObjectErr with
       | Some err => (None, Some err)
       | None => getObject E h ref
       end;
     patchObject := patchObject E;
     deleteObject := deleteObject E;
     removeFinalizer := fun h n finalizer =>
       match removeFinalizerErr with
       | Some err => Some err
       | None => removeFinalizer E h n finalizer
       end;
     deleteOwnerRefPatch := deleteOwnerRefPatch E;
     patchToUnblockOwnerReferences := patchToUnblockOwnerReferences E;
     blockingDependents := blockingDependents E;
     identityString := identityString E;
     aggregateError := aggregateError E |}.

Definition serverTimeout : error :=
  {| errors.reason := errors.ServerTimeout; errors.message := "the server timed out" |}.

(** * Properties *)

(** ** Bookkeeping: the setters and the history *)

Lemma calls_logCall (c : call) (s : State) : calls (logCall c s) = calls s ++ [c].
Proof. reflexivity. Qed.

Lemma calls_setCache (c : UIDCache.t) (s : State) : calls (setCache c s) = calls s.
Proof. reflexivity. Qed.

Lemma length_zero_nil {A} (l : list A) : (List.length l =? 0) = true <-> l = [].
Proof.
  destruct l as [|a l]; simpl; split; intro H; try reflexivity; discriminate.
Qed.

Lemma length_nonzero_cons {A} (l : list A) : l <> [] -> (List.length l =? 0) = false.
Proof.
  destruct l as [|a l]; intro H; [contradiction H; reflexivity | reflexivity].
Qed.

Lemma schema_eqb_refl (r : schema.GroupVersionResource) : schema.eqb r r = true.
Proof.
  unfold schema.eqb. now rewrite !String.eqb_refl.
Qed.

Lemma schema_eqb_eq (a b : schema.GroupVersionResource) :
  schema.eqb a b = true -> a = b.
Proof.
  unfold schema.eqb. destruct a as [g v r], b as [g' v' r']; simpl.
  intro H. apply andb_prop in H as [H Hr]. apply andb_prop in H as [Hg Hv].
  apply String.eqb_eq in Hg, Hv, Hr. now subst.
Qed.

Lemma isIgnored_In (r : schema.GroupVersionResource) :
  isIgnored r = true <-> In r ignoredResources.
Proof.
  unfold isIgnored. rewrite existsb_exists. split.
  - intros [x [Hin Heq]]. apply schema_eqb_eq in Heq. now subst.
  - intro Hin. exists r. split; [assumption | apply schema_eqb_refl].
Qed.

(** ** NewGarbageCollector *)

Section Constructor.

Variable E : Collaborators.

(** What the loop does to the monitors: it only appends, and what it
    appends watches a resource that is not ignored. *)
Lemma monitorsFor_monitors (deletableResources : list schema.GroupVersionResource) :
  forall gc, exists added,
    monitors (fst (monitorsFor E deletableResources gc)) = monitors gc ++ added
    /\ Forall (fun m => isIgnored (monitorResource m) = false
                        /\ In (monitorResource m) deletableResources) added.
Proof.
  induction deletableResources as [|resource rest IH]; intro gc; simpl.
  - exists []. now rewrite app_nil_r.
  - destruct (isIgnored resource) eqn:Hig.
    + destruct (IH gc) as [added [Heq Hall]]. exists added. split; [assumption|].
      eapply Forall_impl; [|exact Hall]. simpl. intros m [? ?]. auto.
    + destruct (KindFor E (calls gc) resource) as [kind|err].
      * unfold controllerFor.
        destruct (MetaOnlyClientForGroupVersionKind E _ kind) as [err|]; simpl.
        -- exists []. now rewrite app_nil_r.
        -- match goal with |- context [monitorsFor E rest ?g] =>
             destruct (IH g) as [added [Heq Hall]] end.
           eexists (_ :: added). split.
           ++ rewrite Heq. simpl. now rewrite <- app_assoc.
           ++ constructor; [simpl; auto|].
              eapply Forall_impl; [|exact Hall]. simpl. intros m [? ?]. auto.
      * simpl. exists []. now rewrite app_nil_r.
Qed.

(** The requests of the loop never name an ignored resource. *)
Lemma monitorsFor_calls (deletableResources : list schema.GroupVersionResource) :
  forall gc resource,
    isIgnored resource = true ->
    In (CallKindFor resource) (calls (fst (monitorsFor E deletableResources gc))) ->
    In (CallKindFor resource) (calls gc).
Proof.
  induction deletableResources as [|r rest IH]; intros gc resource Hig; simpl.
  - trivial.
  - destruct (isIgnored r) eqn:Hr.
    + apply IH; assumption.
    + assert (Hne : CallKindFor resource <> CallKindFor r)
        by (intro Heq; injection Heq as ->; congruence).
      destruct (KindFor E (calls gc) r) as [kind|err].
      * unfold controllerFor.
        destruct (MetaOnlyClientForGroupVersionKind E _ kind) as [err|]; simpl.
        -- rewrite !in_app_iff; simpl. intros [[H|[H|[]]]|[H|[]]]; try assumption;
             try discriminate. now contradiction Hne.
        -- intro H. apply IH in H; [|assumption]. simpl in H.
           rewrite !in_app_iff in H; simpl in H.
           destruct H as [[H|[H|[]]]|[H|[]]]; try assumption; try discriminate.
           now contradiction Hne.
      * simpl. rewrite in_app_iff; simpl. intros [H|[H|[]]]; [assumption|].
        now contradiction Hne.
Qed.

(** The loop over a concatenation: an error in the first part ends it. *)
Lemma monitorsFor_app (pre rest : list schema.GroupVersionResource) :
  forall gc,
    monitorsFor E (pre ++ rest) gc =
    match monitorsFor E pre gc with
    | (gc1, None) => monitorsFor E rest gc1
    | (gc1, Some err) => (gc1, Some err)
    end.
Proof.
  induction pre as [|r pre IH]; intro gc; simpl.
  - reflexivity.
  - destruct (isIgnored r); [apply IH|].
    destruct (KindFor E (calls gc) r) as [kind|err]; [|reflexivity].
    destruct (controllerFor E r kind _) as [[monitor|err] gc1]; [apply IH|reflexivity].
Qed.

(** Without an error the loop has a monitor for each resource that is not
    ignored, in the order of the visit. *)
Lemma monitorsFor_complete (deletableResources : list schema.GroupVersionResource) :
  forall gc gc',
    monitorsFor E deletableResources gc = (gc', None) ->
    map monitorResource (monitors gc') =
    map monitorResource (monitors gc)
    ++ filter (fun r => negb (isIgnored r)) deletableResources.
Proof.
  induction deletableResources as [|r rest IH]; intros gc gc'; simpl.
  - intro H. injection H as <-. now rewrite app_nil_r.
  - destruct (isIgnored r); simpl; [apply IH|].
    destruct (KindFor E (calls gc) r) as [kind|err]; [|discriminate].
    unfold controllerFor.
    destruct (MetaOnlyClientForGroupVersionKind E _ kind) as [err|]; [discriminate|].
    intro H. apply IH in H. rewrite H. simpl.
    rewrite map_app. simpl. now rewrite <- app_assoc.
Qed.

End Constructor.

(** C9: for every resource of the static ignored set, [NewGarbageCollector]
    creates no monitor for it, whatever [deletableResources] lists and in
    whatever order the map is visited: the state built by the loop holds no
    monitor of that resource and the loop has not even asked for its kind,
    and so the collector returned has no monitor of it either. *)
Theorem NewGarbageCollector_skips_ignoredResources :
  forall (E : Collaborators) (deletableResources : list schema.GroupVersionResource)
         (resource : schema.GroupVersionResource),
    In resource ignoredResources ->
    (~ In resource
         (map monitorResource
              (monitors (fst (monitorsFor E deletableResources newGarbageCollector))))
     /\ ~ In (CallKindFor resource)
             (calls (fst (monitorsFor E deletableResources newGarbageCollector))))
    /\ (forall gc err,
           NewGarbageCollector E deletableResources = (Some gc, err) ->
           ~ In resource (map monitorResource (monitors gc))
           /\ ~ In (CallKindFor resource) (calls gc)).
Proof.
  intros E deletableResources resource Hin.
  apply isIgnored_In in Hin.
  assert (Hbuilt :
            ~ In resource
                (map monitorResource
                     (monitors (fst (monitorsFor E deletableResources newGarbageCollector))))
            /\ ~ In (CallKindFor resource)
                    (calls (fst (monitorsFor E deletableResources newGarbageCollector)))).
  { split.
    - destruct (monitorsFor_monitors E deletableResources newGarbageCollector)
        as [added [Heq Hall]].
      rewrite Heq. simpl. intro H. apply in_map_iff in H as [m [Hm Hmem]].
      rewrite Forall_forall in Hall. destruct (Hall m Hmem) as [Hno _].
      rewrite Hm in Hno. congruence.
    - intro H. apply monitorsFor_calls in H; [|assumption]. exact H. }
  split; [exact Hbuilt|].
  intros gc err Hnew. unfold NewGarbageCollector in Hnew.
  destruct (monitorsFor E deletableResources newGarbageCollector) as [gc' [e|]];
    [discriminate|].
  injection Hnew as <- <-. exact Hbuilt.
Qed.

Lemma NewGarbageCollector_skips_ignoredResources_witness :
  In Toy.events ignoredResources
  /\ forall gc err,
      NewGarbageCollector (Toy.cluster [] [] []) [Toy.events; Toy.pods] = (Some gc, err) ->
      ~ In Toy.events (map monitorResource (monitors gc))
      /\ ~ In (CallKindFor Toy.events) (calls gc).
Proof.
  assert (Hin : In Toy.events ignoredResources) by (simpl; tauto).
  split; [exact Hin|].
  exact (proj2 (NewGarbageCollector_skips_ignoredResources
                  (Toy.cluster [] [] []) [Toy.events; Toy.pods] Toy.events Hin)).
Defined.

(** C10: [NewGarbageCollector] fails atomically.  It returns either a
    collector and no error, and then the collector has a monitor for every
    deletable resource that is not ignored, or no collector and an error.
    When the loop reaches a resource that is not ignored and [KindFor] or
    the construction of its monitor answers with an error, the result is
    no collector and that error, whatever was built before. *)
Theorem NewGarbageCollector_fails_atomically :
  forall (E : Collaborators) (deletableResources : list schema.GroupVersionResource),
    match NewGarbageCollector E deletableResources with
    | (Some gc, None) =>
      map monitorResource (monitors gc)
      = filter (fun r => negb (isIgnored r)) deletableResources
    | (None, Some _) => True
    | _ => False
    end
    /\ forall pre resource post gc1 err,
        deletableResources = pre ++ resource :: post ->
        monitorsFor E pre newGarbageCollector = (gc1, None) ->
        isIgnored resource = false ->
        (KindFor E (calls gc1) resource = inr err
         \/ exists kind,
             KindFor E (calls gc1) resource = inl kind
             /\ MetaOnlyClientForGroupVersionKind
                  E (calls gc1 ++ [CallKindFor resource]) kind = Some err) ->
        NewGarbageCollector E deletableResources = (None, Some err).
Proof.
  intros E deletableResources. split.
  - unfold NewGarbageCollector.
    destruct (monitorsFor E deletableResources newGarbageCollector) as [gc [e|]] eqn:Hm;
      [exact I|].
    apply monitorsFor_complete in Hm. exact Hm.
  - intros pre resource post gc1 err -> Hpre Hig Hfail.
    unfold NewGarbageCollector. rewrite monitorsFor_app, Hpre. simpl. rewrite Hig.
    destruct Hfail as [Hk | [kind [Hk Hc]]]; rewrite Hk.
    + reflexivity.
    + unfold controllerFor. rewrite calls_logCall, Hc. reflexivity.
Qed.

Lemma NewGarbageCollector_fails_atomically_witness :
  NewGarbageCollector (Toy.cluster [] [] ["widgets"]) [Toy.events; Toy.pods; Toy.widgets]
  = (None, Some (Toy.noKind "widgets")).
Proof.
  refine (proj2 (NewGarbageCollector_fails_atomically
                   (Toy.cluster [] [] ["widgets"]) [Toy.events; Toy.pods; Toy.widgets])
                [Toy.events; Toy.pods] Toy.widgets []
                (fst (monitorsFor (Toy.cluster [] [] ["widgets"]) [Toy.events; Toy.pods]
                                  newGarbageCollector))
                (Toy.noKind "widgets") _ _ _ _).
  - reflexivity.
  - reflexivity.
  - reflexivity.
  - left. reflexivity.
Defined.

(** ** classifyReferences *)

Ltac run_monad :=
  unfold bind, cacheHas, cacheAdd, request, modify, ret, panic.

Section Classifier.

Variable E : Collaborators.

(** The loop over a concatenation: it goes on with the second part when
    the first part ends without an error. *)
Lemma classifyFrom_app (item : node) (pre rest : list metav1.OwnerReference) :
  forall solid dangling waiting st,
    classifyFrom E item (pre ++ rest) solid dangling waiting st =
    match classifyFrom E item pre solid dangling waiting st with
    | Returns (solid', dangling', waiting', None) st' =>
      classifyFrom E item rest solid' dangling' waiting' st'
    | other => other
    end.
Proof.
  induction pre as [|r pre IH]; intros solid dangling waiting st; simpl.
  - reflexivity.
  - unfold bind.
    destruct (classifyReference E item r solid dangling waiting st) as [step st'|];
      [|reflexivity].
    destruct step as [s d w|s d w err]; [apply IH|reflexivity].
Qed.

(** One more reference after a prefix that was classified without error. *)
Lemma classifyReferences_snoc (item : node) (pre post : list metav1.OwnerReference)
      (reference : metav1.OwnerReference) :
  forall st0 solid dangling waiting st solid' dangling' waiting' st',
    classifyFrom E item pre [] [] [] st0 = Returns (solid, dangling, waiting, None) st ->
    classifyReference E item reference solid dangling waiting st
    = Returns (Next solid' dangling' waiting') st' ->
    classifyReferences E item (pre ++ reference :: post) st0
    = classifyFrom E item post solid' dangling' waiting' st'.
Proof.
  intros st0 solid dangling waiting st solid' dangling' waiting' st' Hpre Hstep.
  unfold classifyReferences. rewrite classifyFrom_app, Hpre. simpl.
  unfold bind. rewrite Hstep. reflexivity.
Qed.

(** Classifying one reference sends only requests that read. *)
Lemma classifyReference_reads (item : node) (reference : metav1.OwnerReference) :
  forall solid dangling waiting st step st',
    classifyReference E item reference solid dangling waiting st = Returns step st' ->
    exists reads, calls st' = calls st ++ reads /\ forallb isRead reads = true.
Proof.
  intros solid dangling waiting st step st'.
  unfold classifyReference. run_monad.
  destruct (UIDCache.Has (absentOwnerCache st) (metav1.UID reference)).
  { intro H. injection H as _ <-. exists []. now rewrite app_nil_r. }
  destruct (ClientForGroupVersionKind E _ _) as [err|].
  { intro H. injection H as _ <-. eexists [_]. split; reflexivity. }
  destruct (apiResource E _ _ _ _) as [resource|err].
  2:{ intro H. injection H as _ <-. eexists [_; _]. simpl.
      rewrite <- app_assoc. split; reflexivity. }
  destruct (ResourceGet E _ resource _ _) as [owner gerr]. simpl.
  destruct gerr as [err|]; [destruct (errors.IsNotFound err)|]; simpl;
    destruct owner as [owner|]; try discriminate;
      repeat match goal with
             | |- context [if ?b then _ else _] => destruct b
             | |- context [match Accessor E ?o with _ => _ end] =>
               destruct (Accessor E o)
             end;
      intro H; injection H as _ <-;
        eexists [_; _; _]; simpl; rewrite <- !app_assoc; split; reflexivity.
Qed.

Lemma classifyFrom_reads (item : node) (latestReferences : list metav1.OwnerReference) :
  forall solid dangling waiting st cl st',
    classifyFrom E item latestReferences solid dangling waiting st = Returns cl st' ->
    exists reads, calls st' = calls st ++ reads /\ forallb isRead reads = true.
Proof.
  induction latestReferences as [|r rest IH]; intros solid dangling waiting st cl st';
    simpl.
  - intro H. injection H as _ <-. exists []. now rewrite app_nil_r.
  - unfold bind.
    destruct (classifyReference E item r solid dangling waiting st) as [step st1|] eqn:Hr;
      [|discriminate].
    apply classifyReference_reads in Hr as [reads1 [Hc1 Hr1]].
    destruct step as [s d w|s d w err].
    + intro H. apply IH in H as [reads2 [Hc2 Hr2]].
      exists (reads1 ++ reads2). split.
      * rewrite Hc2, Hc1. now rewrite app_assoc.
      * rewrite forallb_app, Hr1, Hr2. reflexivity.
    + intro H. injection H as _ <-. exists reads1. auto.
Qed.

End Classifier.

Lemma hasDeleteDependentsFinalizer_In (accessor : metav1.Object) :
  hasDeleteDependentsFinalizer accessor = true
  <-> In v1.FinalizerDeleteDependents (metav1.GetFinalizers accessor).
Proof.
  unfold hasDeleteDependentsFinalizer. rewrite existsb_exists. split.
  - intros [f [Hin Heq]]. apply String.eqb_eq in Heq. now subst.
  - intro Hin. exists v1.FinalizerDeleteDependents. split; [assumption|].
    apply String.eqb_refl.
Qed.

Lemma snoc_neq {A} (l : list A) (a : A) : l ++ [a] <> l.
Proof.
  intro H. apply (f_equal (@List.length A)) in H. rewrite length_app in H.
  simpl in H. lia.
Qed.

(** Two runs that end with different lists are different runs. *)
Ltac snoc_absurd H :=
  injection H; intros;
  match goal with
  | H' : ?l ++ [?a] = ?l |- _ => destruct (snoc_neq l a H')
  end.

(** C8: a reference whose UID is in the absent-owner cache when the loop
    reaches it is classified as dangling at once: the round appends it to
    [dangling] and goes on to the next reference, and it sends no request at
    all, neither to resolve the kind nor to get the owner, so that nothing
    the collaborators could answer can abort the classification there. *)
Theorem classifyReferences_absentOwnerCache_hit :
  forall (E : Collaborators) (item : node) (pre post : list metav1.OwnerReference)
         (reference : metav1.OwnerReference) (st0 st : State)
         (solid dangling waiting : list metav1.OwnerReference),
    classifyFrom E item pre [] [] [] st0 = Returns (solid, dangling, waiting, None) st ->
    UIDCache.Has (absentOwnerCache st) (metav1.UID reference) = true ->
    exists st',
      classifyReference E item reference solid dangling waiting st
      = Returns (Next solid (dangling ++ [reference]) waiting) st'
      /\ calls st' = calls st
      /\ classifyReferences E item (pre ++ reference :: post) st0
         = classifyFrom E item post solid (dangling ++ [reference]) waiting st'.
Proof.
  intros E item pre post reference st0 st solid dangling waiting Hpre Hhit.
  assert (Hstep :
            classifyReference E item reference solid dangling waiting st
            = Returns (Next solid (dangling ++ [reference]) waiting)
                      (setCache (UIDCache.touch (absentOwnerCache st) (metav1.UID reference))
                                st)).
  { unfold classifyReference. run_monad. rewrite Hhit. reflexivity. }
  eexists. split; [exact Hstep|]. split; [reflexivity|].
  eapply classifyReferences_snoc; eassumption.
Qed.

Lemma classifyReferences_absentOwnerCache_hit_witness :
  exists st',
    classifyReference (Toy.cluster [] [] []) Toy.podNode Toy.rsRef [] [] []
                      (setCache (UIDCache.Add (UIDCache.NewUIDCache 500) "uid-rs") Toy.idle)
    = Returns (Next [] [Toy.rsRef] []) st'
    /\ calls st' = []
    /\ classifyReferences (Toy.cluster [] [] []) Toy.podNode [Toy.rsRef]
                          (setCache (UIDCache.Add (UIDCache.NewUIDCache 500) "uid-rs")
                                    Toy.idle)
       = classifyFrom (Toy.cluster [] [] []) Toy.podNode [] [] [Toy.rsRef] [] st'.
Proof.
  apply (classifyReferences_absentOwnerCache_hit
           (Toy.cluster [] [] []) Toy.podNode [] [] Toy.rsRef
           (setCache (UIDCache.Add (UIDCache.NewUIDCache 500) "uid-rs") Toy.idle)
           (setCache (UIDCache.Add (UIDCache.NewUIDCache 500) "uid-rs") Toy.idle)
           [] [] []).
  - reflexivity.
  - reflexivity.
Defined.

(** C6: when the loop reaches a reference that misses the cache and is
    resolved to a live object (a client and a resource for its kind, a [Get]
    without error, an accessor for the object) whose UID is the reference's,
    the reference is classified as waiting if and only if the object has a
    deletion timestamp and carries the "delete dependents" finalizer, and as
    solid in every other case; the loop then goes on. *)
Theorem classifyReferences_waiting_iff :
  forall (E : Collaborators) (item : node) (pre post : list metav1.OwnerReference)
         (reference : metav1.OwnerReference) (st0 st : State)
         (solid dangling waiting : list metav1.OwnerReference)
         (resource : metav1.APIResource) (owner : Unstructured)
         (ownerAccessor : metav1.Object),
    let fqKind :=
        FromAPIVersionAndKind E (metav1.APIVersion reference) (metav1.Kind reference) in
    let namespaced := negb (String.length (Namespace (identity item)) =? 0) in
    let askResource :=
        CallApiResource (metav1.APIVersion reference) (metav1.Kind reference) namespaced in
    classifyFrom E item pre [] [] [] st0 = Returns (solid, dangling, waiting, None) st ->
    UIDCache.Has (absentOwnerCache st) (metav1.UID reference) = false ->
    ClientForGroupVersionKind E (calls st) fqKind = None ->
    apiResource E (calls st ++ [CallClientForGroupVersionKind fqKind])
                (metav1.APIVersion reference) (metav1.Kind reference) namespaced
    = inl resource ->
    ResourceGet E ((calls st ++ [CallClientForGroupVersionKind fqKind]) ++ [askResource])
                resource (Namespace (identity item)) (metav1.Name reference)
    = (Some owner, None) ->
    GetUID owner = metav1.UID reference ->
    Accessor E owner = inl ownerAccessor ->
    exists solid' waiting' st',
      classifyReference E item reference solid dangling waiting st
      = Returns (Next solid' dangling waiting') st'
      /\ classifyReferences E item (pre ++ reference :: post) st0
         = classifyFrom E item post solid' dangling waiting' st'
      /\ ((solid' = solid /\ waiting' = waiting ++ [reference])
          <-> (metav1.GetDeletionTimestamp ownerAccessor <> None
               /\ In v1.FinalizerDeleteDependents (metav1.GetFinalizers ownerAccessor)))
      /\ ((solid' = solid ++ [reference] /\ waiting' = waiting)
          <-> ~ (metav1.GetDeletionTimestamp ownerAccessor <> None
                 /\ In v1.FinalizerDeleteDependents (metav1.GetFinalizers ownerAccessor))).
Proof.
  intros E item pre post reference st0 st solid dangling waiting resource owner
         ownerAccessor fqKind namespaced askResource Hpre Hmiss Hclient Hres Hget Huid Hacc.
  set (cond := (match metav1.GetDeletionTimestamp ownerAccessor with
                | Some _ => true
                | None => false
                end) && hasDeleteDependentsFinalizer ownerAccessor).
  assert (Hcond : cond = true
                  <-> (metav1.GetDeletionTimestamp ownerAccessor <> None
                       /\ In v1.FinalizerDeleteDependents
                             (metav1.GetFinalizers ownerAccessor))).
  { unfold cond. rewrite andb_true_iff, hasDeleteDependentsFinalizer_In.
    destruct (metav1.GetDeletionTimestamp ownerAccessor); split; intros [H1 H2];
      split; try assumption; try discriminate; try reflexivity.
    now contradiction H1. }
  assert (Hstep :
            exists st',
              classifyReference E item reference solid dangling waiting st
              = Returns (if cond
                         then Next solid dangling (waiting ++ [reference])
                         else Next (solid ++ [reference]) dangling waiting) st').
  { unfold classifyReference. run_monad. rewrite Hmiss.
    rewrite calls_setCache. fold fqKind. rewrite Hclient.
    rewrite calls_logCall, calls_setCache. fold namespaced. rewrite Hres.
    rewrite !calls_logCall, calls_setCache. fold askResource. rewrite Hget. simpl.
    rewrite Huid, String.eqb_refl. simpl. rewrite Hacc. fold cond.
    destruct cond; eexists; reflexivity. }
  destruct Hstep as [st' Hstep].
  destruct cond eqn:Hc.
  - exists solid, (waiting ++ [reference]), st'. split; [exact Hstep|]. split.
    + eapply classifyReferences_snoc; eassumption.
    + split; split.
      * intros _. now apply Hcond.
      * auto.
      * intros [Hs _]. symmetry in Hs. now apply snoc_neq in Hs.
      * intro Hn. contradiction Hn. now apply Hcond.
  - assert (Hno : ~ (metav1.GetDeletionTimestamp ownerAccessor <> None
                     /\ In v1.FinalizerDeleteDependents
                           (metav1.GetFinalizers ownerAccessor))).
    { intro H. apply Hcond in H. discriminate. }
    exists (solid ++ [reference]), waiting, st'. split; [exact Hstep|]. split.
    + eapply classifyReferences_snoc; eassumption.
    + split; split.
      * intros [Hs _]. now apply snoc_neq in Hs.
      * intro H. now contradiction Hno.
      * intros _. exact Hno.
      * auto.
Qed.

Lemma classifyReferences_waiting_iff_witness :
  exists solid' waiting' st',
    classifyReference (Toy.cluster [Toy.podObject; Toy.rsDeleting] [] [])
                      Toy.podNode Toy.rsRef [] [] [] Toy.idle
    = Returns (Next solid' [] waiting') st'
    /\ classifyReferences (Toy.cluster [Toy.podObject; Toy.rsDeleting] [] [])
                          Toy.podNode [Toy.rsRef] Toy.idle
       = classifyFrom (Toy.cluster [Toy.podObject; Toy.rsDeleting] [] [])
                      Toy.podNode [] solid' [] waiting' st'
    /\ ((solid' = [] /\ waiting' = [Toy.rsRef])
        <-> (Some "2017-01-01T00:00:00Z" <> None
             /\ In v1.FinalizerDeleteDependents [v1.FinalizerDeleteDependents]))
    /\ ((solid' = [Toy.rsRef] /\ waiting' = [])
        <-> ~ (Some "2017-01-01T00:00:00Z" <> None
               /\ In v1.FinalizerDeleteDependents [v1.FinalizerDeleteDependents])).
Proof.
  apply (classifyReferences_waiting_iff
           (Toy.cluster [Toy.podObject; Toy.rsDeleting] [] [])
           Toy.podNode [] [] Toy.rsRef Toy.idle Toy.idle [] [] []
           {| metav1.arName := "ReplicaSet"; metav1.arNamespaced := true;
              metav1.arKind := "ReplicaSet" |}
           (Toy.toUnstructured Toy.rsDeleting)
           {| metav1.GetDeletionTimestamp := Some "2017-01-01T00:00:00Z";
              metav1.GetFinalizers := [v1.FinalizerDeleteDependents] |}).
  - reflexivity.
  - reflexivity.
  - reflexivity.
  - reflexivity.
  - reflexivity.
  - reflexivity.
  - reflexivity.
Defined.

(** What the round does when the [Get] of the owner answers NotFound: the
    UID is added to the cache and the reference appended to [dangling], and
    then the statements that follow the [if] run all the same, on the owner
    that came with the error.  No answer lets the round end with the
    reference in [dangling] once and the other lists as they were. *)
Lemma classifyReference_NotFound_falls_through :
  forall (E : Collaborators) (item : node) (reference : metav1.OwnerReference)
         (st : State) (solid dangling waiting : list metav1.OwnerReference)
         (resource : metav1.APIResource) (owner : option Unstructured) (err : error),
    let fqKind :=
        FromAPIVersionAndKind E (metav1.APIVersion reference) (metav1.Kind reference) in
    let namespaced := negb (String.length (Namespace (identity item)) =? 0) in
    let askResource :=
        CallApiResource (metav1.APIVersion reference) (metav1.Kind reference) namespaced in
    UIDCache.Has (absentOwnerCache st) (metav1.UID reference) = false ->
    ClientForGroupVersionKind E (calls st) fqKind = None ->
    apiResource E (calls st ++ [CallClientForGroupVersionKind fqKind])
                (metav1.APIVersion reference) (metav1.Kind reference) namespaced
    = inl resource ->
    ResourceGet E ((calls st ++ [CallClientForGroupVersionKind fqKind]) ++ [askResource])
                resource (Namespace (identity item)) (metav1.Name reference)
    = (owner, Some err) ->
    errors.IsNotFound err = true ->
    (owner = None ->
     classifyReference E item reference solid dangling waiting st = Panics)
    /\ forall st',
        classifyReference E item reference solid dangling waiting st
        <> Returns (Next solid (dangling ++ [reference]) waiting) st'.
Proof.
  intros E item reference st solid dangling waiting resource owner err
         fqKind namespaced askResource Hmiss Hclient Hres Hget Hnf.
  assert (Hrun :
            classifyReference E item reference solid dangling waiting st =
            match owner with
            | None => Panics
            | Some owner =>
              let asked :=
                  logCall (CallResourceGet resource (Namespace (identity item))
                                           (metav1.Name reference))
                          (logCall askResource
                                   (logCall (CallClientForGroupVersionKind fqKind)
                                            (setCache
                                               (UIDCache.touch (absentOwnerCache st)
                                                               (metav1.UID reference))
                                               st))) in
              let st1 :=
                  setCache (UIDCache.Add (absentOwnerCache asked) (metav1.UID reference))
                           asked in
              if negb (String.eqb (GetUID owner) (metav1.UID reference))
              then Returns (Next solid ((dangling ++ [reference]) ++ [reference]) waiting)
                           (setCache (UIDCache.Add (absentOwnerCache st1)
                                                   (metav1.UID reference)) st1)
              else
                match Accessor E owner with
                | inr err => Returns (Return solid (dangling ++ [reference]) waiting err) st1
                | inl ownerAccessor =>
                  if (match metav1.GetDeletionTimestamp ownerAccessor with
                      | Some _ => true
                      | None => false
                      end)
                     && hasDeleteDependentsFinalizer ownerAccessor
                  then Returns (Next solid (dangling ++ [reference])
                                     (waiting ++ [reference])) st1
                  else Returns (Next (solid ++ [reference]) (dangling ++ [reference])
                                     waiting) st1
                end
            end).
  { unfold classifyReference. run_monad. rewrite Hmiss.
    rewrite calls_setCache. fold fqKind. rewrite Hclient.
    rewrite calls_logCall, calls_setCache. fold namespaced. rewrite Hres.
    rewrite !calls_logCall, calls_setCache. fold askResource. rewrite Hget. simpl.
    rewrite Hnf. simpl. destruct owner as [owner|]; [|reflexivity].
    cbv zeta.
    destruct (negb (String.eqb (GetUID owner) (metav1.UID reference))); [reflexivity|].
    destruct (Accessor E owner) as [ownerAccessor|aerr]; [|reflexivity].
    destruct (_ && hasDeleteDependentsFinalizer ownerAccessor); reflexivity. }
  split.
  - intros ->. exact Hrun.
  - intros st' Heq. rewrite Hrun in Heq.
    destruct owner as [owner|]; [|discriminate]. cbv zeta in Heq.
    destruct (negb (String.eqb (GetUID owner) (metav1.UID reference))).
    + snoc_absurd Heq.
    + destruct (Accessor E owner) as [ownerAccessor|aerr]; [|discriminate].
      destruct (_ && hasDeleteDependentsFinalizer ownerAccessor); snoc_absurd Heq.
Qed.

(** C2, on the code: the pod's owner reference names a replica set that the
    server does not have, the [Get] answers a nil object and NotFound, and
    the classification panics on [owner.GetUID()] instead of going on to
    the next reference. *)
Theorem classifyReferences_NotFound_panics :
  errors.IsNotFound (Toy.notFound "rs") = true
  /\ ResourceGet (Toy.cluster [Toy.podObject] [] []) []
                 {| metav1.arName := "ReplicaSet"; metav1.arNamespaced := true;
                    metav1.arKind := "ReplicaSet" |} "default" "rs"
     = (None, Some (Toy.notFound "rs"))
  /\ classifyReferences (Toy.cluster [Toy.podObject] [] []) Toy.podNode [Toy.rsRef] Toy.idle
     = Panics.
Proof.
  repeat split; reflexivity.
Qed.

(** ** processItem *)

Section Worker.

Variable E : Collaborators.

(** The scan of the dependents sends at most one patch, the one that
    unblocks the owner references of [item], and only when some dependent
    is deleting its own dependents. *)
Lemma unblockOwnerReferences_run (item : node) (deps : list node) (st : State) :
  unblockOwnerReferences E item deps st =
  if existsb deletingDependents deps
  then match patchToUnblockOwnerReferences E item with
       | inr err => Returns (Some err) st
       | inl patch =>
         Returns (snd (patchObject E (calls st) (identity item) patch))
                 (logCall (CallPatchObject (identity item) patch) st)
       end
  else Returns None st.
Proof.
  induction deps as [|dep rest IH]; simpl.
  - reflexivity.
  - destruct (deletingDependents dep); simpl; [|exact IH].
    destruct (patchToUnblockOwnerReferences E item); reflexivity.
Qed.

(** The way of [processItem] up to the switch on the classification. *)
Lemma processItem_classified (item : node) (st st2 : State) (latest : Unstructured)
      (solid dangling waiting : list metav1.OwnerReference) :
  beingDeleted item = false ->
  deletingDependents item = false ->
  getObject E (calls st) (identity item) = (Some latest, None) ->
  GetUID latest = refUID (identity item) ->
  GetOwnerReferences latest <> [] ->
  classifyReferences E item (GetOwnerReferences latest)
                     (logCall (CallGetObject (identity item)) st)
  = Returns (solid, dangling, waiting, None) st2 ->
  processItem E item st =
  (if negb (List.length solid =? 0)
   then
     let patch :=
         deleteOwnerRefPatch E (refUID (identity item))
                             (ownerRefsToUIDs dangling ++ ownerRefsToUIDs waiting) in
     res <- request (CallPatchObject (identity item) patch)
                    (fun h => patchObject E h (identity item) patch) ;;
     ret (snd res)
   else if negb (List.length waiting =? 0) && negb (List.length (dependents item) =? 0)
   then
     err <- unblockOwnerReferences E item (dependents item) ;;
     match err with
     | Some err => ret (Some err)
     | None =>
       request (CallDeleteObject (identity item) v1.DeletePropagationForeground)
               (fun h => deleteObject E h (identity item) v1.DeletePropagationForeground)
     end
   else
     request (CallDeleteObject (identity item) v1.DeletePropagationDefault)
             (fun h => deleteObject E h (identity item) v1.DeletePropagationDefault))
    st2.
Proof.
  intros Hbd Hdd Hget Huid Hrefs Hcl.
  unfold processItem. rewrite Hbd, Hdd. simpl.
  unfold bind at 1. unfold request at 1. rewrite Hget. simpl.
  rewrite Huid, String.eqb_refl. simpl.
  rewrite (length_nonzero_cons _ Hrefs).
  unfold bind at 1. rewrite Hcl. reflexivity.
Qed.

(** The orphaning loop never touches [failedDependents]. *)
Lemma orphanEach_failedDependents (owner : objectReference) (dependents : list node) :
  forall failedDependents errorsSlice st,
  exists errorsSlice' st',
    orphanEach E owner dependents failedDependents errorsSlice st
    = Returns (failedDependents, errorsSlice') st'.
Proof.
  induction dependents as [|dependent rest IH]; intros failedDependents errorsSlice st;
    simpl.
  - do 2 eexists. reflexivity.
  - unfold bind, request.
    destruct (snd (patchObject E (calls st) (identity dependent) _)) as [err|];
      [destruct (negb (errors.IsNotFound err))|]; apply IH.
Qed.

(** So [orhpanDependents] returns nil whatever the patches answered. *)
Lemma orhpanDependents_returns_nil (owner : objectReference) (dependents : list node)
      (st : State) :
  exists st', orhpanDependents E owner dependents st = Returns None st'.
Proof.
  unfold orhpanDependents, bind.
  destruct (orphanEach_failedDependents owner dependents [] [] st) as [es [st' Heq]].
  rewrite Heq. simpl. exists st'. reflexivity.
Qed.

End Worker.

(** C7: when the re-fetch of the object answers NotFound, or an object whose
    UID is not the node's, [processItem] adds one event to the graph-change
    queue and returns nil; it has sent the one [Get] and nothing else.  The
    event is a delete event without an old object, and its object carries
    the node's identity: the UID, the name, the namespace, the kind and the
    API version of the event's object are those of [item.identity].  The
    worker then marks the item done and does not add it back to its
    queue. *)
Theorem processItem_virtual_delete :
  forall (E : Collaborators) (item : node) (st : State),
    beingDeleted item && negb (deletingDependents item) = false ->
    ((exists latest err,
         getObject E (calls st) (identity item) = (latest, Some err)
         /\ errors.IsNotFound err = true)
     \/ (exists latest,
            getObject E (calls st) (identity item) = (Some latest, None)
            /\ GetUID latest <> refUID (identity item))) ->
    exists ev,
      processItem E item st
      = Returns None
                (setGraphChanges (graphChanges st ++ [Add ev])
                                 (logCall (CallGetObject (identity item)) st))
      /\ evType ev = deleteEvent
      /\ oldObj ev = None
      /\ v1.omUID (metaonly.ObjectMeta (obj ev))
         = metav1.UID (OwnerReference (identity item))
      /\ v1.omName (metaonly.ObjectMeta (obj ev))
         = metav1.Name (OwnerReference (identity item))
      /\ v1.omNamespace (metaonly.ObjectMeta (obj ev)) = Namespace (identity item)
      /\ metav1.tmKind (metaonly.TypeMeta (obj ev))
         = metav1.Kind (OwnerReference (identity item))
      /\ metav1.tmAPIVersion (metaonly.TypeMeta (obj ev))
         = metav1.APIVersion (OwnerReference (identity item))
      /\ attemptToDeleteWorker E item false st
         = Returns tt
                   (setAttemptToDelete
                      (attemptToDelete st ++ [Done item])
                      (setGraphChanges (graphChanges st ++ [Add ev])
                                       (logCall (CallGetObject (identity item)) st))).
Proof.
  intros E item st Hguard Hget.
  exists {| evType := deleteEvent;
            obj := objectReferenceToMetadataOnlyObject (identity item);
            oldObj := None |}.
  assert (Hrun : processItem E item st
                 = Returns None
                           (setGraphChanges
                              (graphChanges st
                               ++ [Add {| evType := deleteEvent;
                                          obj := objectReferenceToMetadataOnlyObject
                                                   (identity item);
                                          oldObj := None |}])
                              (logCall (CallGetObject (identity item)) st))).
  { unfold processItem. rewrite Hguard.
    unfold bind at 1. unfold request at 1.
    destruct Hget as [[latest [err [Hget Hnf]]] | [latest [Hget Huid]]]; rewrite Hget; simpl.
    - rewrite Hnf. reflexivity.
    - apply String.eqb_neq in Huid. rewrite Huid. reflexivity. }
  split; [exact Hrun|].
  repeat (split; [reflexivity|]).
  unfold attemptToDeleteWorker, bind. rewrite Hrun. reflexivity.
Qed.

Lemma processItem_virtual_delete_witness :
  exists ev,
    processItem (Toy.cluster [Toy.rsObject] [] []) Toy.podNode Toy.idle
    = Returns None
              (setGraphChanges (graphChanges Toy.idle ++ [Add ev])
                               (logCall (CallGetObject (identity Toy.podNode)) Toy.idle))
    /\ evType ev = deleteEvent
    /\ oldObj ev = None
    /\ v1.omUID (metaonly.ObjectMeta (obj ev)) = "uid-pod"
    /\ v1.omName (metaonly.ObjectMeta (obj ev)) = "pod"
    /\ v1.omNamespace (metaonly.ObjectMeta (obj ev)) = "default"
    /\ metav1.tmKind (metaonly.TypeMeta (obj ev)) = "Pod"
    /\ metav1.tmAPIVersion (metaonly.TypeMeta (obj ev)) = "v1".
Proof.
  destruct (processItem_virtual_delete
              (Toy.cluster [Toy.rsObject] [] []) Toy.podNode Toy.idle)
    as [ev [Hrun [Htype [Hold [Huid [Hname [Hns [Hkind [Hver _]]]]]]]]].
  - reflexivity.
  - left. exists None, (Toy.notFound "pod"). split; reflexivity.
  - exists ev. repeat split; assumption.
Defined.

(** C5: [processDeletingDependentsItem] sends the request that removes the
    "delete dependents" finalizer if and only if the node has no blocking
    dependents, and then returns what the request answered.  Otherwise it
    adds each blocking dependent that is not [deletingDependents] to the
    delete-attempt queue, returns nil, and leaves everything else as it was:
    no request is sent.  [processItem] hands a node to it when the node is
    [deletingDependents] and the re-fetch found the object with its UID. *)
Theorem processDeletingDependentsItem_finalizer_iff :
  forall (E : Collaborators) (item : node) (st : State),
    (exists err st',
        processDeletingDependentsItem E item st = Returns err st'
        /\ (calls st' = calls st ++ [CallRemoveFinalizer item v1.FinalizerDeleteDependents]
            <-> blockingDependents E item = [])
        /\ (blockingDependents E item = [] ->
            err = removeFinalizer E (calls st) item v1.FinalizerDeleteDependents
            /\ st' = logCall (CallRemoveFinalizer item v1.FinalizerDeleteDependents) st)
        /\ (blockingDependents E item <> [] ->
            err = None
            /\ st' = setAttemptToDelete
                       (attemptToDelete st
                        ++ map Add (filter (fun dep => negb (deletingDependents dep))
                                           (blockingDependents E item))) st))
    /\ (forall latest,
           deletingDependents item = true ->
           getObject E (calls st) (identity item) = (Some latest, None) ->
           GetUID latest = refUID (identity item) ->
           processItem E item st
           = processDeletingDependentsItem E item
                                           (logCall (CallGetObject (identity item)) st)).
Proof.
  intros E item st. split.
  - unfold processDeletingDependentsItem.
    destruct (blockingDependents E item) as [|dep deps] eqn:Hb; simpl.
    + do 2 eexists. split; [reflexivity|]. split; [|split].
      * simpl. split; auto.
      * auto.
      * intro H. now contradiction H.
    + run_monad. do 2 eexists. split; [reflexivity|]. split; [|split].
      * simpl. split; [|discriminate]. intro H. symmetry in H.
        now apply snoc_neq in H.
      * discriminate.
      * auto.
  - intros latest Hdd Hget Huid.
    unfold processItem. rewrite Hdd, andb_false_r.
    unfold bind at 1. unfold request at 1. rewrite Hget. simpl.
    rewrite Huid, String.eqb_refl. reflexivity.
Qed.

Lemma processDeletingDependentsItem_finalizer_iff_witness :
  Toy.blockingDependentsOf Toy.rsCascading = [Toy.podNode]
  /\ processItem (Toy.cluster [Toy.rsDeleting; Toy.podObject] [] []) Toy.rsCascading Toy.idle
     = processDeletingDependentsItem
         (Toy.cluster [Toy.rsDeleting; Toy.podObject] [] []) Toy.rsCascading
         (logCall (CallGetObject (identity Toy.rsCascading)) Toy.idle).
Proof.
  split; [reflexivity|].
  apply (proj2 (processDeletingDependentsItem_finalizer_iff
                  (Toy.cluster [Toy.rsDeleting; Toy.podObject] [] [])
                  Toy.rsCascading Toy.idle)
               (Toy.toUnstructured Toy.rsDeleting)).
  - reflexivity.
  - reflexivity.
  - reflexivity.
Defined.

(** C4: when the classification of a node's references yields a solid
    reference, [processItem] sends no delete.  After the re-fetch and the
    requests of the classification, which only read, it sends one patch of
    the object, built by [deleteOwnerRefPatch] from the object's own UID as
    precondition and the UIDs of the dangling and of the waiting references,
    and returns the error of that patch. *)
Theorem processItem_solid_owner_never_deleted :
  forall (E : Collaborators) (item : node) (st st2 : State) (latest : Unstructured)
         (solid dangling waiting : list metav1.OwnerReference),
    beingDeleted item = false ->
    deletingDependents item = false ->
    getObject E (calls st) (identity item) = (Some latest, None) ->
    GetUID latest = refUID (identity item) ->
    GetOwnerReferences latest <> [] ->
    classifyReferences E item (GetOwnerReferences latest)
                       (logCall (CallGetObject (identity item)) st)
    = Returns (solid, dangling, waiting, None) st2 ->
    solid <> [] ->
    let patch :=
        deleteOwnerRefPatch E (refUID (identity item))
                            (ownerRefsToUIDs dangling ++ ownerRefsToUIDs waiting) in
    exists st' reads,
      processItem E item st
      = Returns (snd (patchObject E (calls st2) (identity item) patch)) st'
      /\ calls st2 = calls st ++ reads
      /\ calls st' = calls st ++ reads ++ [CallPatchObject (identity item) patch]
      /\ forallb isRead reads = true
      /\ forallb (fun c => negb (isDelete c))
                 (reads ++ [CallPatchObject (identity item) patch]) = true.
Proof.
  intros E item st st2 latest solid dangling waiting Hbd Hdd Hget Huid Hrefs Hcl Hsolid patch.
  rewrite (processItem_classified E item st st2 latest solid dangling waiting
                                  Hbd Hdd Hget Huid Hrefs Hcl).
  rewrite (length_nonzero_cons _ Hsolid). simpl.
  apply classifyFrom_reads in Hcl as [reads [Hcalls Hreads]].
  rewrite calls_logCall, <- app_assoc in Hcalls.
  exists (logCall (CallPatchObject (identity item) patch) st2), ([CallGetObject (identity item)] ++ reads).
  split; [reflexivity|]. split; [exact Hcalls|]. split; [|split].
  - rewrite calls_logCall, Hcalls. now rewrite <- !app_assoc.
  - simpl. exact Hreads.
  - rewrite forallb_app. simpl. rewrite andb_true_r.
    rewrite forallb_forall in Hreads. apply forallb_forall.
    intros c Hc. apply Hreads in Hc. now destruct c.
Qed.

Lemma processItem_solid_owner_never_deleted_witness :
  exists st' reads,
    processItem (Toy.cluster [Toy.podTwice; Toy.rsObject] [] []) Toy.podNode Toy.idle
    = Returns None st'
    /\ calls st'
       = reads ++ [CallPatchObject (identity Toy.podNode) "drop uid-rs-old from uid-pod"]
    /\ forallb isRead reads = true.
Proof.
  destruct (processItem_solid_owner_never_deleted
              (Toy.cluster [Toy.podTwice; Toy.rsObject] [] [])
              Toy.podNode Toy.idle
              (match classifyReferences (Toy.cluster [Toy.podTwice; Toy.rsObject] [] [])
                                        Toy.podNode [Toy.rsRef; Toy.staleRef]
                                        (logCall (CallGetObject (identity Toy.podNode))
                                                 Toy.idle) with
               | Returns _ st2 => st2
               | Panics => Toy.idle
               end)
              (Toy.toUnstructured Toy.podTwice)
              [Toy.rsRef] [Toy.staleRef] [])
    as [st' [reads [Hrun [_ [Hcalls [Hreads _]]]]]];
    [reflexivity | reflexivity | reflexivity | reflexivity | discriminate
     | reflexivity | discriminate | ].
  exists st', reads. split; [exact Hrun|]. split; [exact Hcalls|exact Hreads].
Defined.

(** C3, as the code has it: when the classification yields no solid
    reference and a waiting one, and the node has dependents, [processItem]
    looks for a dependent that is [deletingDependents].  If there is one it
    sends one patch, of the node itself, with the body that unblocks the
    node's own owner references; an error in building or sending the patch
    is returned and nothing is deleted.  Otherwise, and when no dependent is
    [deletingDependents], it deletes the node with foreground propagation
    and returns the answer of the delete. *)
Theorem processItem_waiting_unblocks_item :
  forall (E : Collaborators) (item : node) (st st2 : State) (latest : Unstructured)
         (dangling waiting : list metav1.OwnerReference),
    beingDeleted item = false ->
    deletingDependents item = false ->
    getObject E (calls st) (identity item) = (Some latest, None) ->
    GetUID latest = refUID (identity item) ->
    GetOwnerReferences latest <> [] ->
    classifyReferences E item (GetOwnerReferences latest)
                       (logCall (CallGetObject (identity item)) st)
    = Returns ([], dangling, waiting, None) st2 ->
    waiting <> [] ->
    dependents item <> [] ->
    processItem E item st =
    if existsb deletingDependents (dependents item)
    then
      match patchToUnblockOwnerReferences E item with
      | inr err => Returns (Some err) st2
      | inl patch =>
        match snd (patchObject E (calls st2) (identity item) patch) with
        | Some err =>
          Returns (Some err) (logCall (CallPatchObject (identity item) patch) st2)
        | None =>
          Returns (deleteObject E (calls st2 ++ [CallPatchObject (identity item) patch])
                                (identity item) v1.DeletePropagationForeground)
                  (logCall (CallDeleteObject (identity item) v1.DeletePropagationForeground)
                           (logCall (CallPatchObject (identity item) patch) st2))
        end
      end
    else
      Returns (deleteObject E (calls st2) (identity item) v1.DeletePropagationForeground)
              (logCall (CallDeleteObject (identity item) v1.DeletePropagationForeground)
                       st2).
Proof.
  intros E item st st2 latest dangling waiting Hbd Hdd Hget Huid Hrefs Hcl Hw Hdeps.
  rewrite (processItem_classified E item st st2 latest [] dangling waiting
                                  Hbd Hdd Hget Huid Hrefs Hcl).
  simpl. rewrite (length_nonzero_cons _ Hw), (length_nonzero_cons _ Hdeps). simpl.
  unfold bind. rewrite unblockOwnerReferences_run.
  destruct (existsb deletingDependents (dependents item)); [|reflexivity].
  destruct (patchToUnblockOwnerReferences E item) as [patch|err]; [|reflexivity].
  destruct (snd (patchObject E (calls st2) (identity item) patch)); reflexivity.
Qed.

Lemma processItem_waiting_unblocks_item_witness :
  processItem (Toy.cluster [Toy.rsOwned; Toy.depDeleting] [] []) Toy.rsBetween Toy.idle
  = Returns None
            (logCall (CallDeleteObject (identity Toy.rsBetween) v1.DeletePropagationForeground)
               (logCall (CallPatchObject (identity Toy.rsBetween) "unblock uid-rs")
                  (logCall (CallResourceGet
                              {| metav1.arName := "Deployment"; metav1.arNamespaced := true;
                                 metav1.arKind := "Deployment" |} "default" "dep")
                     (logCall (CallApiResource "v1" "Deployment" true)
                        (logCall (CallClientForGroupVersionKind
                                    {| schema.gvkGroup := ""; schema.gvkVersion := "v1";
                                       schema.gvkKind := "Deployment" |})
                           (logCall (CallGetObject (identity Toy.rsBetween)) Toy.idle)))))).
Proof.
  apply (processItem_waiting_unblocks_item
           (Toy.cluster [Toy.rsOwned; Toy.depDeleting] [] [])
           Toy.rsBetween Toy.idle
           (logCall (CallResourceGet
                       {| metav1.arName := "Deployment"; metav1.arNamespaced := true;
                          metav1.arKind := "Deployment" |} "default" "dep")
              (logCall (CallApiResource "v1" "Deployment" true)
                 (logCall (CallClientForGroupVersionKind
                             {| schema.gvkGroup := ""; schema.gvkVersion := "v1";
                                schema.gvkKind := "Deployment" |})
                    (logCall (CallGetObject (identity Toy.rsBetween)) Toy.idle))))
           (Toy.toUnstructured Toy.rsOwned) [] [Toy.depRef]).
  - reflexivity.
  - reflexivity.
  - reflexivity.
  - reflexivity.
  - discriminate.
  - reflexivity.
  - discriminate.
  - discriminate.
Defined.

(** C3, as the claim has it, fails: the replica set has an owner in
    foreground deletion and a dependent pod that is [deletingDependents].
    [processItem] sends one patch, addressed to the replica set and
    unblocking the replica set's own owner references, and then deletes the
    replica set in the foreground; no patch is addressed to the pod. *)
Lemma processItem_does_not_patch_the_dependent :
  In Toy.podCascading (dependents Toy.rsBetween)
  /\ deletingDependents Toy.podCascading = true
  /\ exists st',
      processItem (Toy.cluster [Toy.rsOwned; Toy.depDeleting] [] []) Toy.rsBetween Toy.idle
      = Returns None st'
      /\ filter (fun c => negb (isRead c)) (calls st')
         = [CallPatchObject (identity Toy.rsBetween) "unblock uid-rs";
            CallDeleteObject (identity Toy.rsBetween) v1.DeletePropagationForeground]
      /\ ~ (exists patch, In (CallPatchObject (identity Toy.podCascading) patch) (calls st')).
Proof.
  split; [simpl; auto|]. split; [reflexivity|].
  eexists. split; [lazy; reflexivity|]. split; [reflexivity|].
  intros [patch Hin]. simpl in Hin.
  repeat (destruct Hin as [Hin|Hin]; [discriminate|]).
  exact Hin.
Qed.

(** ** The orphan worker *)

(** C1, on the code: the replica set is orphaning its pod, and the patch of
    the pod fails with a conflict, which is not NotFound.  All the same
    [orhpanDependents] returns nil, the worker goes on to remove the
    "orphan" finalizer from the replica set, and the replica set is not
    added back to the queue. *)
Theorem attemptToOrphanWorker_ignores_failed_patch :
  snd (patchObject (Toy.cluster [Toy.podObject; Toy.rsObject] ["pod"] []) []
                   (identity Toy.podNode) "drop uid-rs from uid-pod")
  = Some (Toy.conflict "pod")
  /\ errors.IsNotFound (Toy.conflict "pod") = false
  /\ orhpanDependents (Toy.cluster [Toy.podObject; Toy.rsObject] ["pod"] [])
                      (identity Toy.rsNode) (dependents Toy.rsNode) Toy.idle
     = Returns None
               (logCall (CallPatchObject (identity Toy.podNode) "drop uid-rs from uid-pod")
                        Toy.idle)
  /\ exists st',
      attemptToOrphanWorker (Toy.cluster [Toy.podObject; Toy.rsObject] ["pod"] [])
                            Toy.rsNode false Toy.idle
      = Returns tt st'
      /\ calls st'
         = [CallPatchObject (identity Toy.podNode) "drop uid-rs from uid-pod";
            CallRemoveFinalizer Toy.rsNode v1.FinalizerOrphanDependents]
      /\ attemptToOrphan st' = [Done Toy.rsNode].
Proof.
  split; [reflexivity|]. split; [reflexivity|]. split; [reflexivity|].
  eexists. split; [lazy; reflexivity|]. split; reflexivity.
Qed.

(** ** The absent-owner cache *)

(** A UID just added is in the cache, as long as the cache holds anything. *)
Lemma UIDCache_Has_Add (c : UIDCache.t) (uid : types.UID) :
  0 < UIDCache.maxSize c -> UIDCache.Has (UIDCache.Add c uid) uid = true.
Proof.
  intro Hpos. unfold UIDCache.Has, UIDCache.Add. simpl.
  destruct (UIDCache.maxSize c) as [|n]; [lia|]. simpl.
  now rewrite String.eqb_refl.
Qed.

Lemma existsb_without (uid other : types.UID) (l : list types.UID) :
  String.eqb other uid = false ->
  existsb (String.eqb other) (UIDCache.without uid l) = existsb (String.eqb other) l.
Proof.
  intro Hne. unfold UIDCache.without.
  induction l as [|u l IH]; simpl; [reflexivity|].
  destruct (String.eqb u uid) eqn:Hu; simpl.
  - apply String.eqb_eq in Hu. subst u. now rewrite Hne.
  - now rewrite IH.
Qed.

(** A lookup changes the order of the entries, not the set. *)
Lemma UIDCache_Has_touch (c : UIDCache.t) (uid other : types.UID) :
  UIDCache.Has (UIDCache.touch c uid) other = UIDCache.Has c other.
Proof.
  unfold UIDCache.touch. destruct (UIDCache.Has c uid) eqn:Hhit; [|reflexivity].
  unfold UIDCache.Has in *. simpl.
  destruct (String.eqb other uid) eqn:Heq; simpl.
  - apply String.eqb_eq in Heq. subst other. now rewrite Hhit.
  - now apply existsb_without.
Qed.

(** ** Scenarios *)

(** A node that is being deleted and is not waiting for its dependents is
    left alone: no request is sent. *)
Example processItem_beingDeleted_returns_at_once :
  forall (E : Collaborators) (item : node) (st : State),
    beingDeleted item = true ->
    deletingDependents item = false ->
    processItem E item st = Returns None st.
Proof.
  intros E item st Hbd Hdd. unfold processItem. now rewrite Hbd, Hdd.
Qed.

(** An object without owner references: [processItem] fetches it and does
    nothing more. *)
Example processItem_no_owner :
  processItem (Toy.cluster [Toy.podObject; Toy.rsObject] [] []) Toy.rsNode Toy.idle
  = Returns None (logCall (CallGetObject (identity Toy.rsNode)) Toy.idle).
Proof. reflexivity. Qed.

(** The only owner reference of the pod names a replica set whose name now
    belongs to another object: the reference is dangling and the pod is
    deleted with default propagation. *)
Example processItem_dangling_owner_deleted :
  exists st',
    processItem
      (Toy.cluster [{| Toy.loName := "pod"; Toy.loUID := "uid-pod";
                       Toy.loOwnerReferences := [Toy.staleRef];
                       Toy.loDeletionTimestamp := None; Toy.loFinalizers := [] |};
                    Toy.rsObject] [] [])
      Toy.podNode Toy.idle
    = Returns None st'
    /\ filter (fun c => negb (isRead c)) (calls st')
       = [CallDeleteObject (identity Toy.podNode) v1.DeletePropagationDefault]
    /\ UIDCache.Has (absentOwnerCache st') "uid-rs-old" = true.
Proof.
  eexists. split; [lazy; reflexivity|]. split; reflexivity.
Qed.

(** A replica set in foreground deletion whose pod still blocks it: the pod
    is added to the delete-attempt queue and the finalizer stays. *)
Example processItem_blocked_by_dependent :
  processItem (Toy.cluster [Toy.rsDeleting; Toy.podObject] [] []) Toy.rsCascading Toy.idle
  = Returns None
            (setAttemptToDelete [Add Toy.podNode]
                                (logCall (CallGetObject (identity Toy.rsCascading)) Toy.idle)).
Proof. reflexivity. Qed.

(** The orphan worker when every patch succeeds: the finalizer is removed
    and the owner is done. *)
Example attemptToOrphanWorker_all_patched :
  exists st',
    attemptToOrphanWorker (Toy.cluster [Toy.podObject; Toy.rsObject] [] [])
                          Toy.rsNode false Toy.idle
    = Returns tt st'
    /\ calls st'
       = [CallPatchObject (identity Toy.podNode) "drop uid-rs from uid-pod";
          CallRemoveFinalizer Toy.rsNode v1.FinalizerOrphanDependents]
    /\ attemptToOrphan st' = [Done Toy.rsNode].
Proof.
  eexists. split; [lazy; reflexivity|]. split; reflexivity.
Qed.

(** The constructor on three resources, one of them ignored: two monitors,
    in the order of the visit. *)
Example NewGarbageCollector_monitors :
  exists gc,
    NewGarbageCollector (Toy.cluster [] [] []) [Toy.events; Toy.pods; Toy.widgets]
    = (Some gc, None)
    /\ map monitorResource (monitors gc) = [Toy.pods; Toy.widgets].
Proof.
  eexists. split; [lazy; reflexivity|]. reflexivity.
Qed.

(** * Further properties of the collector *)

(** ** classifyReferences: what a run leaves behind *)

Lemma filter_mutations_reads (reads : list call) :
  forallb isRead reads = true -> filter (fun c => negb (isRead c)) reads = [].
Proof.
  induction reads as [|c reads IH]; simpl; [reflexivity|].
  intro H. apply andb_prop in H as [Hc Hr]. rewrite Hc. simpl. now apply IH.
Qed.

Section ClassifierFrame.

Variable E : Collaborators.

(** One round leaves the queues and the monitors alone and sends at most
    three requests, all of them reads. *)
Lemma classifyReference_frame (item : node) (reference : metav1.OwnerReference) :
  forall solid dangling waiting st step st',
    classifyReference E item reference solid dangling waiting st = Returns step st' ->
    attemptToDelete st' = attemptToDelete st
    /\ attemptToOrphan st' = attemptToOrphan st
    /\ graphChanges st' = graphChanges st
    /\ monitors st' = monitors st
    /\ exists reads,
        calls st' = calls st ++ reads
        /\ forallb isRead reads = true
        /\ List.length reads <= 3.
Proof.
  intros solid dangling waiting st step st'.
  unfold classifyReference. run_monad.
  destruct (UIDCache.Has (absentOwnerCache st) (metav1.UID reference)).
  { intro H. injection H as _ <-. repeat split. exists []. simpl.
    rewrite app_nil_r. repeat split. lia. }
  destruct (ClientForGroupVersionKind E _ _) as [err|].
  { intro H. injection H as _ <-. repeat split. eexists [_]. simpl.
    repeat split. lia. }
  destruct (apiResource E _ _ _ _) as [resource|err].
  2:{ intro H. injection H as _ <-. repeat split. eexists [_; _]. simpl.
      rewrite <- app_assoc. repeat split. lia. }
  destruct (ResourceGet E _ resource _ _) as [owner gerr]. simpl.
  destruct gerr as [err|]; [destruct (errors.IsNotFound err)|]; simpl;
    destruct owner as [owner|]; try discriminate;
      repeat match goal with
             | |- context [if ?b then _ else _] => destruct b
             | |- context [match Accessor E ?o with _ => _ end] =>
               destruct (Accessor E o)
             end;
      intro H; injection H as _ <-; repeat split;
        eexists [_; _; _]; simpl; rewrite <- !app_assoc; repeat split; lia.
Qed.

Lemma classifyFrom_frame (item : node) (latestReferences : list metav1.OwnerReference) :
  forall solid dangling waiting st cl st',
    classifyFrom E item latestReferences solid dangling waiting st = Returns cl st' ->
    attemptToDelete st' = attemptToDelete st
    /\ attemptToOrphan st' = attemptToOrphan st
    /\ graphChanges st' = graphChanges st
    /\ monitors st' = monitors st
    /\ exists reads,
        calls st' = calls st ++ reads
        /\ forallb isRead reads = true
        /\ List.length reads <= 3 * List.length latestReferences.
Proof.
  induction latestReferences as [|r rest IH]; intros solid dangling waiting st cl st'.
  - simpl. intro H. injection H as _ <-. repeat split. exists [].
    rewrite app_nil_r. repeat split. simpl. lia.
  - cbn [classifyFrom]. unfold bind.
    destruct (classifyReference E item r solid dangling waiting st) as [step st1|] eqn:Hr;
      [|discriminate].
    apply classifyReference_frame in Hr
      as [Hd1 [Ho1 [Hg1 [Hm1 [reads1 [Hc1 [Hr1 Hl1]]]]]]].
    destruct step as [s d w|s d w err].
    + intro H. apply IH in H as [Hd2 [Ho2 [Hg2 [Hm2 [reads2 [Hc2 [Hr2 Hl2]]]]]]].
      repeat split; try congruence.
      exists (reads1 ++ reads2). split; [|split].
      * rewrite Hc2, Hc1. now rewrite app_assoc.
      * rewrite forallb_app, Hr1, Hr2. reflexivity.
      * rewrite length_app. simpl. lia.
    + intro H. injection H as _ <-. repeat split; try assumption.
      exists reads1. repeat split; try assumption. simpl. lia.
Qed.

(** What one round that goes on has appended: the reference, once or
    twice, and nothing else. *)
Lemma classifyReference_appends (item : node) (reference : metav1.OwnerReference) :
  forall solid dangling waiting st solid' dangling' waiting' st',
    classifyReference E item reference solid dangling waiting st
    = Returns (Next solid' dangling' waiting') st' ->
    exists s1 d1 w1,
      solid' = solid ++ s1 /\ dangling' = dangling ++ d1 /\ waiting' = waiting ++ w1
      /\ (forall x, In x (s1 ++ d1 ++ w1) <-> x = reference).
Proof.
  intros solid dangling waiting st solid' dangling' waiting' st'.
  unfold classifyReference. run_monad.
  assert (Hone : forall x : metav1.OwnerReference,
             In x [reference] <-> x = reference)
    by (intro x; simpl; intuition congruence).
  assert (Htwo : forall x : metav1.OwnerReference,
             In x [reference; reference] <-> x = reference)
    by (intro x; simpl; intuition congruence).
  destruct (UIDCache.Has (absentOwnerCache st) (metav1.UID reference)).
  { intro H. injection H as <- <- <- _. exists [], [reference], [].
    rewrite !app_nil_r. auto. }
  destruct (ClientForGroupVersionKind E _ _) as [err|]; [discriminate|].
  destruct (apiResource E _ _ _ _) as [resource|err]; [|discriminate].
  destruct (ResourceGet E _ resource _ _) as [owner gerr]. simpl.
  destruct gerr as [err|]; [destruct (errors.IsNotFound err)|]; simpl;
    destruct owner as [owner|]; try discriminate;
      repeat match goal with
             | |- context [if ?b then _ else _] => destruct b
             | |- context [match Accessor E ?o with _ => _ end] =>
               destruct (Accessor E o)
             end;
      try discriminate;
      intro H; injection H as <- <- <- _;
        first
          [ exists [], [reference], []; rewrite !app_nil_r; now auto
          | exists [], [], [reference]; rewrite !app_nil_r; now auto
          | exists [reference], [], []; rewrite !app_nil_r; now auto
          | exists [], [reference; reference], []; rewrite !app_nil_r, <- ?app_assoc;
            now auto
          | exists [], [reference], [reference]; rewrite !app_nil_r; now auto
          | exists [reference], [reference], []; rewrite !app_nil_r; now auto ].
Qed.

End ClassifierFrame.

(** What the three lists hold at the end is what they held at the start
    and the references given. *)
Lemma classifyFrom_covers (E : Collaborators) (item : node) :
  forall refs s d w st0 solid dangling waiting st',
    classifyFrom E item refs s d w st0 = Returns (solid, dangling, waiting, None) st' ->
    forall x, In x (s ++ d ++ w) \/ In x refs <-> In x (solid ++ dangling ++ waiting).
Proof.
  induction refs as [|r rest IH]; intros s d w st0 solid dangling waiting st'.
  - simpl. intro H. injection H as <- <- <-. intro x. tauto.
  - cbn [classifyFrom]. unfold bind.
    destruct (classifyReference E item r s d w st0) as [step st1|] eqn:Hr; [|discriminate].
    destruct step as [s' d' w'|s' d' w' err]; [|discriminate].
    apply classifyReference_appends in Hr as [s1 [d1 [w1 [-> [-> [-> Hin]]]]]].
    intros H x. apply IH with (x := x) in H. rewrite <- H.
    specialize (Hin x). rewrite !in_app_iff in Hin. rewrite !in_app_iff. simpl.
    assert (Hsym : r = x <-> x = r) by (split; intro; now symmetry).
    clear - Hin Hsym. tauto.
Qed.

(** X1: a classification that ends without error has put every reference
    it was given into [solid], [dangling] or [waiting], and has put nothing
    else there. *)
Theorem classifyReferences_covers_references :
  forall (E : Collaborators) (item : node) (latestReferences : list metav1.OwnerReference)
         (st st' : State) (solid dangling waiting : list metav1.OwnerReference),
    classifyReferences E item latestReferences st
    = Returns (solid, dangling, waiting, None) st' ->
    forall reference,
      In reference latestReferences
      <-> In reference solid \/ In reference dangling \/ In reference waiting.
Proof.
  intros E item latestReferences st st' solid dangling waiting Hrun reference.
  pose proof (classifyFrom_covers E item _ _ _ _ _ _ _ _ _ Hrun reference) as Hgen.
  simpl in Hgen. rewrite !in_app_iff in Hgen. tauto.
Qed.

Lemma classifyReferences_covers_references_witness :
  In Toy.staleRef [Toy.rsRef; Toy.staleRef]
  <-> In Toy.staleRef [Toy.rsRef] \/ In Toy.staleRef [Toy.staleRef] \/ In Toy.staleRef [].
Proof.
  apply (classifyReferences_covers_references
           (Toy.cluster [Toy.podTwice; Toy.rsObject] [] []) Toy.podNode
           [Toy.rsRef; Toy.staleRef] Toy.idle
           (match classifyReferences (Toy.cluster [Toy.podTwice; Toy.rsObject] [] [])
                                     Toy.podNode [Toy.rsRef; Toy.staleRef] Toy.idle with
            | Returns _ st' => st'
            | Panics => Toy.idle
            end)).
  reflexivity.
Defined.

Lemma Permutation_into_first {A} (r : A) (s d w : list A) :
  Permutation (r :: s ++ d ++ w) ((s ++ [r]) ++ d ++ w).
Proof.
  rewrite <- app_assoc. simpl. apply Permutation_middle.
Qed.

Lemma Permutation_into_second {A} (r : A) (s d w : list A) :
  Permutation (r :: s ++ d ++ w) (s ++ (d ++ [r]) ++ w).
Proof.
  rewrite <- (app_assoc d [r] w). simpl. rewrite !app_assoc. apply Permutation_middle.
Qed.

Lemma Permutation_into_third {A} (r : A) (s d w : list A) :
  Permutation (r :: s ++ d ++ w) (s ++ d ++ w ++ [r]).
Proof.
  rewrite !app_assoc. apply Permutation_cons_append.
Qed.

Lemma ownersFound_app (E : Collaborators) (sent more : list call) :
  forall before,
    ownersFound E before (sent ++ more)
    = ownersFound E before sent && ownersFound E (before ++ sent) more.
Proof.
  induction sent as [|c sent IH]; intro h; simpl.
  - now rewrite app_nil_r.
  - rewrite IH, <- app_assoc. simpl. now rewrite andb_assoc.
Qed.

(** One round that goes on: what it sent, and that it put the reference
    into exactly one list unless a [Get] was answered with an error. *)
Lemma classifyReference_partition_step (E : Collaborators) (item : node)
      (r : metav1.OwnerReference) :
  forall s d w st0 s' d' w' st1,
    classifyReference E item r s d w st0 = Returns (Next s' d' w') st1 ->
    exists sent,
      calls st1 = calls st0 ++ sent
      /\ (ownersFound E (calls st0) sent = true ->
          Permutation (r :: s ++ d ++ w) (s' ++ d' ++ w')).
Proof.
  intros s d w st0 s' d' w' st1.
  unfold classifyReference. run_monad.
  destruct (UIDCache.Has (absentOwnerCache st0) (metav1.UID r)).
  { intro H. injection H as <- <- <- <-. exists []. simpl. rewrite app_nil_r.
    split; [reflexivity|]. intros _. apply Permutation_into_second. }
  rewrite calls_setCache.
  destruct (ClientForGroupVersionKind E _ _) as [err|]; [discriminate|].
  rewrite calls_logCall, calls_setCache.
  destruct (apiResource E _ _ _ _) as [resource|err]; [|discriminate].
  rewrite !calls_logCall, calls_setCache.
  destruct (ResourceGet E _ resource _ _) as [owner gerr] eqn:Hget. simpl.
  destruct gerr as [err|].
  - destruct (errors.IsNotFound err); simpl; [|discriminate].
    destruct owner as [owner|]; [|discriminate].
    destruct (negb (String.eqb (GetUID owner) (metav1.UID r)));
      [|destruct (Accessor E owner) as [ownerAccessor|aerr];
        [destruct (_ && hasDeleteDependentsFinalizer ownerAccessor)|discriminate]];
      intro H; injection H as _ _ _ <-; eexists [_; _; _];
        (split; [simpl; rewrite <- !app_assoc; reflexivity|]);
        simpl; rewrite Hget; simpl; discriminate.
  - destruct owner as [owner|]; [|discriminate].
    destruct (negb (String.eqb (GetUID owner) (metav1.UID r)));
      [|destruct (Accessor E owner) as [ownerAccessor|aerr];
        [destruct (_ && hasDeleteDependentsFinalizer ownerAccessor)|discriminate]];
      intro H; injection H as <- <- <- <-; eexists [_; _; _];
        (split; [simpl; rewrite <- !app_assoc; reflexivity|]); intros _.
    + apply Permutation_into_second.
    + apply Permutation_into_third.
    + apply Permutation_into_first.
Qed.

Lemma classifyFrom_partition (E : Collaborators) (item : node) :
  forall refs s d w st0 solid dangling waiting st',
    classifyFrom E item refs s d w st0 = Returns (solid, dangling, waiting, None) st' ->
    exists sent,
      calls st' = calls st0 ++ sent
      /\ (ownersFound E (calls st0) sent = true ->
          Permutation (refs ++ s ++ d ++ w) (solid ++ dangling ++ waiting)).
Proof.
  induction refs as [|r rest IH]; intros s d w st0 solid dangling waiting st'.
  - simpl. intro H. injection H as <- <- <- <-. exists []. rewrite app_nil_r.
    split; [reflexivity|]. intros _. reflexivity.
  - cbn [classifyFrom]. unfold bind.
    destruct (classifyReference E item r s d w st0) as [step st1|] eqn:Hr; [|discriminate].
    destruct step as [s1 d1 w1|s1 d1 w1 err]; [|discriminate].
    apply classifyReference_partition_step in Hr as [sent1 [Hc1 Hp1]].
    intro H. apply IH in H as [sent2 [Hc2 Hp2]].
    exists (sent1 ++ sent2). split.
    + rewrite Hc2, Hc1. now rewrite app_assoc.
    + rewrite ownersFound_app. intro Hok. apply andb_prop in Hok as [Hok1 Hok2].
      rewrite <- Hc1 in Hok2. specialize (Hp1 Hok1). specialize (Hp2 Hok2).
      rewrite <- Hp2. simpl.
      apply Permutation_trans with (l' := rest ++ r :: s ++ d ++ w).
      * apply Permutation_cons_app. reflexivity.
      * apply Permutation_app_head. exact Hp1.
Qed.

(** X2: in a run of the classification that ends without error and in
    which every [Get] of an owner was answered without an error, the three
    lists are a partition of the references given: together they hold each
    reference exactly as often as it was given. *)
Theorem classifyReferences_partitions_references :
  forall (E : Collaborators) (item : node) (latestReferences : list metav1.OwnerReference)
         (st st' : State) (solid dangling waiting : list metav1.OwnerReference)
         (sent : list call),
    classifyReferences E item latestReferences st
    = Returns (solid, dangling, waiting, None) st' ->
    calls st' = calls st ++ sent ->
    ownersFound E (calls st) sent = true ->
    Permutation latestReferences (solid ++ dangling ++ waiting).
Proof.
  intros E item latestReferences st st' solid dangling waiting sent Hrun Hsent Hfound.
  apply classifyFrom_partition in Hrun as [sent' [Hc Hp]].
  rewrite Hc in Hsent. apply app_inv_head in Hsent. subst sent'.
  specialize (Hp Hfound). simpl in Hp. now rewrite app_nil_r in Hp.
Qed.

Lemma classifyReferences_partitions_references_witness :
  Permutation [Toy.rsRef; Toy.staleRef] ([Toy.rsRef] ++ [Toy.staleRef] ++ []).
Proof.
  apply (classifyReferences_partitions_references
           (Toy.cluster [Toy.podTwice; Toy.rsObject] [] []) Toy.podNode
           [Toy.rsRef; Toy.staleRef] Toy.idle
           (match classifyReferences (Toy.cluster [Toy.podTwice; Toy.rsObject] [] [])
                                     Toy.podNode [Toy.rsRef; Toy.staleRef] Toy.idle with
            | Returns _ st' => st'
            | Panics => Toy.idle
            end)
           [Toy.rsRef] [Toy.staleRef] []
           (calls (match classifyReferences
                           (Toy.cluster [Toy.podTwice; Toy.rsObject] [] [])
                           Toy.podNode [Toy.rsRef; Toy.staleRef] Toy.idle with
                   | Returns _ st' => st'
                   | Panics => Toy.idle
                   end))).
  - reflexivity.
  - reflexivity.
  - reflexivity.
Defined.

(** The loop stops at the round that returns: the references that follow
    are not looked at. *)
Lemma classifyReferences_stops (E : Collaborators) (item : node)
      (pre post : list metav1.OwnerReference) (reference : metav1.OwnerReference) :
  forall st0 solid dangling waiting st solid' dangling' waiting' err st',
    classifyFrom E item pre [] [] [] st0 = Returns (solid, dangling, waiting, None) st ->
    classifyReference E item reference solid dangling waiting st
    = Returns (Return solid' dangling' waiting' err) st' ->
    classifyReferences E item (pre ++ reference :: post) st0
    = Returns (solid', dangling', waiting', Some err) st'.
Proof.
  intros st0 solid dangling waiting st solid' dangling' waiting' err st' Hpre Hstep.
  unfold classifyReferences. rewrite classifyFrom_app, Hpre. simpl.
  unfold bind. rewrite Hstep. reflexivity.
Qed.

Lemma UIDCache_touch_miss (c : UIDCache.t) (uid : types.UID) :
  UIDCache.Has c uid = false -> UIDCache.touch c uid = c.
Proof.
  intro H. unfold UIDCache.touch. now rewrite H.
Qed.

(** X3: when the client pool, the resolution of the kind, or the [Get] of
    an owner answers with an error other than NotFound, the classification
    returns that error at once, with the lists as they were before that
    reference; the references after it are not examined, the failing
    reference's UID is not added to the absent-owner cache, and only reads
    were sent. *)
Theorem classifyReferences_error_aborts :
  forall (E : Collaborators) (item : node) (pre post : list metav1.OwnerReference)
         (reference : metav1.OwnerReference) (st0 st : State)
         (solid dangling waiting : list metav1.OwnerReference) (err : error),
    let fqKind :=
        FromAPIVersionAndKind E (metav1.APIVersion reference) (metav1.Kind reference) in
    let namespaced := negb (String.length (Namespace (identity item)) =? 0) in
    let askResource :=
        CallApiResource (metav1.APIVersion reference) (metav1.Kind reference) namespaced in
    classifyFrom E item pre [] [] [] st0 = Returns (solid, dangling, waiting, None) st ->
    UIDCache.Has (absentOwnerCache st) (metav1.UID reference) = false ->
    (ClientForGroupVersionKind E (calls st) fqKind = Some err
     \/ (ClientForGroupVersionKind E (calls st) fqKind = None
         /\ apiResource E (calls st ++ [CallClientForGroupVersionKind fqKind])
                        (metav1.APIVersion reference) (metav1.Kind reference) namespaced
            = inr err)
     \/ (exists resource owner,
            ClientForGroupVersionKind E (calls st) fqKind = None
            /\ apiResource E (calls st ++ [CallClientForGroupVersionKind fqKind])
                           (metav1.APIVersion reference) (metav1.Kind reference) namespaced
               = inl resource
            /\ ResourceGet E ((calls st ++ [CallClientForGroupVersionKind fqKind])
                                ++ [askResource])
                           resource (Namespace (identity item)) (metav1.Name reference)
               = (owner, Some err)
            /\ errors.IsNotFound err = false)) ->
    exists st' reads,
      classifyReferences E item (pre ++ reference :: post) st0
      = Returns (solid, dangling, waiting, Some err) st'
      /\ absentOwnerCache st' = absentOwnerCache st
      /\ calls st' = calls st ++ reads
      /\ forallb isRead reads = true.
Proof.
  intros E item pre post reference st0 st solid dangling waiting err
         fqKind namespaced askResource Hpre Hmiss Hfail.
  assert (Hstep : exists st' reads,
             classifyReference E item reference solid dangling waiting st
             = Returns (Return solid dangling waiting err) st'
             /\ absentOwnerCache st' = absentOwnerCache st
             /\ calls st' = calls st ++ reads
             /\ forallb isRead reads = true).
  { unfold classifyReference. run_monad. rewrite Hmiss.
    rewrite calls_setCache. fold fqKind.
    destruct Hfail as [Hc | [[Hc Hr] | [resource [owner [Hc [Hr [Hg Hnf]]]]]]];
      rewrite Hc.
    - do 2 eexists. split; [reflexivity|]. simpl.
      rewrite (UIDCache_touch_miss _ _ Hmiss).
      split; [reflexivity|]. split; reflexivity.
    - rewrite calls_logCall, calls_setCache. fold namespaced. rewrite Hr.
      do 2 eexists. split; [reflexivity|]. simpl.
      rewrite (UIDCache_touch_miss _ _ Hmiss), <- app_assoc.
      split; [reflexivity|]. split; reflexivity.
    - rewrite calls_logCall, calls_setCache. fold namespaced. rewrite Hr.
      rewrite !calls_logCall, calls_setCache. fold askResource. rewrite Hg. simpl.
      rewrite Hnf. simpl.
      do 2 eexists. split; [reflexivity|]. simpl.
      rewrite (UIDCache_touch_miss _ _ Hmiss), <- !app_assoc.
      split; [reflexivity|]. split; reflexivity. }
  destruct Hstep as [st' [reads [Hstep [Hcache [Hcalls Hreads]]]]].
  exists st', reads. split; [|auto].
  eapply classifyReferences_stops; eassumption.
Qed.

Lemma classifyReferences_error_aborts_witness :
  exists st' reads,
    classifyReferences
      (failingCluster (Toy.cluster [Toy.podObject; Toy.rsObject] [] [])
                      (Some serverTimeout) None None)
      Toy.podNode [Toy.rsRef; Toy.staleRef] Toy.idle
    = Returns ([], [], [], Some serverTimeout) st'
    /\ absentOwnerCache st' = absentOwnerCache Toy.idle
    /\ calls st' = reads
    /\ forallb isRead reads = true.
Proof.
  apply (classifyReferences_error_aborts
           (failingCluster (Toy.cluster [Toy.podObject; Toy.rsObject] [] [])
                           (Some serverTimeout) None None)
           Toy.podNode [] [Toy.staleRef] Toy.rsRef Toy.idle Toy.idle [] [] []
           serverTimeout).
  - reflexivity.
  - reflexivity.
  - right. right.
    exists {| metav1.arName := "ReplicaSet"; metav1.arNamespaced := true;
              metav1.arKind := "ReplicaSet" |}, None.
    repeat split; reflexivity.
Defined.

(** X4: an owner that is found under another UID than the reference's is
    treated as absent: the reference is classified as dangling, the loop
    goes on, and the UID is added to the absent-owner cache, so that as long
    as the cache holds anything the next classification of a reference with
    that UID, for whatever dependent, is answered from the cache without a
    request. *)
Theorem classifyReferences_uid_mismatch_dangling :
  forall (E : Collaborators) (item : node) (pre post : list metav1.OwnerReference)
         (reference : metav1.OwnerReference) (st0 st : State)
         (solid dangling waiting : list metav1.OwnerReference)
         (resource : metav1.APIResource) (owner : Unstructured),
    let fqKind :=
        FromAPIVersionAndKind E (metav1.APIVersion reference) (metav1.Kind reference) in
    let namespaced := negb (String.length (Namespace (identity item)) =? 0) in
    let askResource :=
        CallApiResource (metav1.APIVersion reference) (metav1.Kind reference) namespaced in
    classifyFrom E item pre [] [] [] st0 = Returns (solid, dangling, waiting, None) st ->
    UIDCache.Has (absentOwnerCache st) (metav1.UID reference) = false ->
    ClientForGroupVersionKind E (calls st) fqKind = None ->
    apiResource E (calls st ++ [CallClientForGroupVersionKind fqKind])
                (metav1.APIVersion reference) (metav1.Kind reference) namespaced
    = inl resource ->
    ResourceGet E ((calls st ++ [CallClientForGroupVersionKind fqKind]) ++ [askResource])
                resource (Namespace (identity item)) (metav1.Name reference)
    = (Some owner, None) ->
    GetUID owner <> metav1.UID reference ->
    0 < UIDCache.maxSize (absentOwnerCache st) ->
    exists st',
      classifyReferences E item (pre ++ reference :: post) st0
      = classifyFrom E item post solid (dangling ++ [reference]) waiting st'
      /\ UIDCache.Has (absentOwnerCache st') (metav1.UID reference) = true
      /\ forall item2 solid2 dangling2 waiting2,
          exists st'',
            classifyReference E item2 reference solid2 dangling2 waiting2 st'
            = Returns (Next solid2 (dangling2 ++ [reference]) waiting2) st''
            /\ calls st'' = calls st'.
Proof.
  intros E item pre post reference st0 st solid dangling waiting resource owner
         fqKind namespaced askResource Hpre Hmiss Hclient Hres Hget Huid Hsize.
  apply String.eqb_neq in Huid.
  assert (Hstep : exists st',
             classifyReference E item reference solid dangling waiting st
             = Returns (Next solid (dangling ++ [reference]) waiting) st'
             /\ absentOwnerCache st'
                = UIDCache.Add (absentOwnerCache st) (metav1.UID reference)).
  { unfold classifyReference. run_monad. rewrite Hmiss.
    rewrite calls_setCache. fold fqKind. rewrite Hclient.
    rewrite calls_logCall, calls_setCache. fold namespaced. rewrite Hres.
    rewrite !calls_logCall, calls_setCache. fold askResource. rewrite Hget. simpl.
    rewrite Huid. simpl. eexists. split; [reflexivity|]. simpl.
    now rewrite (UIDCache_touch_miss _ _ Hmiss). }
  destruct Hstep as [st' [Hstep Hcache]].
  assert (Hhit : UIDCache.Has (absentOwnerCache st') (metav1.UID reference) = true)
    by (rewrite Hcache; now apply UIDCache_Has_Add).
  exists st'. split; [|split].
  - eapply classifyReferences_snoc; eassumption.
  - exact Hhit.
  - intros item2 solid2 dangling2 waiting2. eexists.
    unfold classifyReference. run_monad. rewrite Hhit. split; reflexivity.
Qed.

Lemma classifyReferences_uid_mismatch_dangling_witness :
  exists st',
    classifyReferences (Toy.cluster [Toy.podTwice; Toy.rsObject] [] [])
                       Toy.podNode [Toy.staleRef] Toy.idle
    = classifyFrom (Toy.cluster [Toy.podTwice; Toy.rsObject] [] [])
                   Toy.podNode [] [] [Toy.staleRef] [] st'
    /\ UIDCache.Has (absentOwnerCache st') "uid-rs-old" = true
    /\ forall item2 solid2 dangling2 waiting2,
        exists st'',
          classifyReference (Toy.cluster [Toy.podTwice; Toy.rsObject] [] [])
                            item2 Toy.staleRef solid2 dangling2 waiting2 st'
          = Returns (Next solid2 (dangling2 ++ [Toy.staleRef]) waiting2) st''
          /\ calls st'' = calls st'.
Proof.
  apply (classifyReferences_uid_mismatch_dangling
           (Toy.cluster [Toy.podTwice; Toy.rsObject] [] [])
           Toy.podNode [] [] Toy.staleRef Toy.idle Toy.idle [] [] []
           {| metav1.arName := "ReplicaSet"; metav1.arNamespaced := true;
              metav1.arKind := "ReplicaSet" |}
           (Toy.toUnstructured Toy.rsObject)).
  - reflexivity.
  - reflexivity.
  - reflexivity.
  - reflexivity.
  - reflexivity.
  - discriminate.
  - simpl. lia.
Defined.

(** X5: a classification, however it ends, sends only reads, at most three
    for each reference, and leaves the three work queues and the monitors as
    they were: it never patches, deletes or touches a finalizer. *)
Theorem classifyReferences_only_reads :
  forall (E : Collaborators) (item : node) (latestReferences : list metav1.OwnerReference)
         (st st' : State) (cl : classification),
    classifyReferences E item latestReferences st = Returns cl st' ->
    attemptToDelete st' = attemptToDelete st
    /\ attemptToOrphan st' = attemptToOrphan st
    /\ graphChanges st' = graphChanges st
    /\ monitors st' = monitors st
    /\ exists reads,
        calls st' = calls st ++ reads
        /\ forallb isRead reads = true
        /\ List.length reads <= 3 * List.length latestReferences.
Proof.
  intros E item latestReferences st st' cl Hrun.
  exact (classifyFrom_frame E item latestReferences [] [] [] st cl st' Hrun).
Qed.

Lemma classifyReferences_only_reads_witness :
  exists st',
    classifyReferences (Toy.cluster [Toy.podTwice; Toy.rsObject] [] [])
                       Toy.podNode [Toy.rsRef; Toy.staleRef] Toy.idle
    = Returns ([Toy.rsRef], [Toy.staleRef], [], None) st'
    /\ exists reads,
        calls st' = reads /\ forallb isRead reads = true /\ List.length reads <= 6.
Proof.
  eexists. split; [lazy; reflexivity|].
  exact (proj2 (proj2 (proj2 (proj2
           (classifyReferences_only_reads
              (Toy.cluster [Toy.podTwice; Toy.rsObject] [] []) Toy.podNode
              [Toy.rsRef; Toy.staleRef] Toy.idle _ _ eq_refl))))).
Defined.

(** ** processItem: what one call may do *)

(** X6: whatever the collaborators answer, a call of [processItem] that
    returns has sent, after reads only, one of five things: nothing; one
    patch of the item; one patch of the item and then its deletion in the
    foreground; one deletion of the item; or the removal of the item's
    "delete dependents" finalizer.  No other object is ever patched or
    deleted, and the orphan queue and the monitors are left alone. *)
Theorem processItem_decision :
  forall (E : Collaborators) (item : node) (st st' : State) (err : option error),
    processItem E item st = Returns err st' ->
    exists reads tail,
      calls st' = calls st ++ reads ++ tail
      /\ forallb isRead reads = true
      /\ decision item tail
      /\ attemptToOrphan st' = attemptToOrphan st
      /\ monitors st' = monitors st.
Proof.
  intros E item st st' err.
  unfold processItem.
  destruct (beingDeleted item && negb (deletingDependents item)).
  { intro H. injection H as _ <-. exists [], []. simpl. rewrite app_nil_r.
    repeat split. constructor. }
  unfold bind at 1. unfold request at 1.
  destruct (getObject E (calls st) (identity item)) as [latest gerr]. simpl.
  assert (Hquiet : forall (s : State),
             calls s = calls st ++ [CallGetObject (identity item)] ->
             attemptToOrphan s = attemptToOrphan st ->
             monitors s = monitors st ->
             exists reads tail,
               calls s = calls st ++ reads ++ tail
               /\ forallb isRead reads = true
               /\ decision item tail
               /\ attemptToOrphan s = attemptToOrphan st
               /\ monitors s = monitors st).
  { intros s Hc Ho Hm. exists [CallGetObject (identity item)], [].
    rewrite app_nil_r. repeat split; try assumption. constructor. }
  destruct gerr as [gerr|].
  { destruct (errors.IsNotFound gerr); run_monad; intro H; injection H as _ <-;
      apply Hquiet; reflexivity. }
  destruct latest as [latest|]; [|discriminate].
  destruct (negb (String.eqb (GetUID latest) (refUID (identity item)))).
  { run_monad. intro H. injection H as _ <-. apply Hquiet; reflexivity. }
  destruct (deletingDependents item).
  { unfold processDeletingDependentsItem.
    destruct (List.length (blockingDependents E item) =? 0); run_monad;
      intro H; injection H as _ <-.
    - exists [CallGetObject (identity item)],
             [CallRemoveFinalizer item v1.FinalizerDeleteDependents].
      simpl. rewrite <- app_assoc. repeat split. constructor.
    - apply Hquiet; reflexivity. }
  cbv zeta.
  destruct (List.length (GetOwnerReferences latest) =? 0).
  { run_monad. intro H. injection H as _ <-. apply Hquiet; reflexivity. }
  unfold bind at 1.
  destruct (classifyReferences E item (GetOwnerReferences latest) _)
    as [cl st2|] eqn:Hcl; [|discriminate].
  apply classifyFrom_frame in Hcl as [_ [Ho2 [_ [Hm2 [reads2 [Hc2 [Hr2 _]]]]]]].
  rewrite calls_logCall in Hc2. simpl in Ho2, Hm2.
  assert (Hafter : forall (s : State) tail,
             calls s = calls st2 ++ tail ->
             attemptToOrphan s = attemptToOrphan st2 ->
             monitors s = monitors st2 ->
             decision item tail ->
             exists reads tail,
               calls s = calls st ++ reads ++ tail
               /\ forallb isRead reads = true
               /\ decision item tail
               /\ attemptToOrphan s = attemptToOrphan st
               /\ monitors s = monitors st).
  { intros s tail Hc Ho Hm Hd.
    exists ([CallGetObject (identity item)] ++ reads2), tail.
    repeat split; try congruence.
    - rewrite Hc, Hc2. now rewrite <- !app_assoc.
    - simpl. exact Hr2. }
  destruct cl as [[[solid dangling] waiting] cerr].
  destruct cerr as [cerr|].
  { run_monad. intro H. injection H as _ <-.
    apply (Hafter st2 []); try reflexivity; [now rewrite app_nil_r | constructor]. }
  destruct (negb (List.length solid =? 0)).
  { run_monad. intro H. injection H as _ <-.
    eapply Hafter; try reflexivity. constructor. }
  destruct (negb (List.length waiting =? 0) && negb (List.length (dependents item) =? 0)).
  - unfold bind. rewrite unblockOwnerReferences_run.
    destruct (existsb deletingDependents (dependents item)).
    + destruct (patchToUnblockOwnerReferences E item) as [patch|perr].
      * destruct (snd (patchObject E (calls st2) (identity item) patch)) as [perr|];
          run_monad; intro H; injection H as _ <-.
        -- eapply Hafter; try reflexivity. constructor.
        -- apply (Hafter _ [CallPatchObject (identity item) patch;
                            CallDeleteObject (identity item)
                                             v1.DeletePropagationForeground]);
             try reflexivity; [|constructor].
           simpl. now rewrite <- app_assoc.
      * run_monad. intro H. injection H as _ <-.
        apply (Hafter st2 []); try reflexivity; [now rewrite app_nil_r | constructor].
    + run_monad. intro H. injection H as _ <-.
      eapply Hafter; try reflexivity. constructor.
  - run_monad. intro H. injection H as _ <-.
    eapply Hafter; try reflexivity. constructor.
Qed.

Lemma processItem_decision_witness :
  exists reads tail,
    calls (match processItem (Toy.cluster [Toy.rsOwned; Toy.depDeleting] [] [])
                             Toy.rsBetween Toy.idle with
           | Returns _ st' => st'
           | Panics => Toy.idle
           end)
    = calls Toy.idle ++ reads ++ tail
    /\ forallb isRead reads = true
    /\ decision Toy.rsBetween tail
    /\ attemptToOrphan (match processItem (Toy.cluster [Toy.rsOwned; Toy.depDeleting] [] [])
                                          Toy.rsBetween Toy.idle with
                        | Returns _ st' => st'
                        | Panics => Toy.idle
                        end)
       = attemptToOrphan Toy.idle
    /\ monitors (match processItem (Toy.cluster [Toy.rsOwned; Toy.depDeleting] [] [])
                                   Toy.rsBetween Toy.idle with
                 | Returns _ st' => st'
                 | Panics => Toy.idle
                 end)
       = monitors Toy.idle.
Proof.
  apply (processItem_decision (Toy.cluster [Toy.rsOwned; Toy.depDeleting] [] [])
                              Toy.rsBetween Toy.idle _ None).
  reflexivity.
Defined.

(** Where a delete can be among the requests sent: not among the reads. *)
Lemma delete_in_sent (before reads tail sent after : list call)
      (id : objectReference) (policy : v1.DeletionPropagation) :
  after = before ++ reads ++ tail ->
  forallb isRead reads = true ->
  after = before ++ sent ->
  In (CallDeleteObject id policy) sent ->
  In (CallDeleteObject id policy) tail.
Proof.
  intros Hknown Hreads Hsent Hin. rewrite Hknown in Hsent.
  apply app_inv_head in Hsent. subst sent.
  apply in_app_or in Hin as [Hin|Hin]; [|exact Hin].
  rewrite forallb_forall in Hreads. apply Hreads in Hin. discriminate.
Qed.

(** X7: [processItem] deletes an object only on these grounds: the node is
    neither being deleted nor waiting for its dependents, the re-fetch found
    the object under the node's UID with at least one owner reference, and
    the classification of those references ended without error and without
    a single solid reference.  A deletion in the foreground moreover needs a
    waiting reference and a dependent.  The object deleted is the item. *)
Theorem processItem_deletes_only_without_solid_owner :
  forall (E : Collaborators) (item : node) (st st' : State) (err : option error)
         (sent : list call) (id : objectReference) (policy : v1.DeletionPropagation),
    processItem E item st = Returns err st' ->
    calls st' = calls st ++ sent ->
    In (CallDeleteObject id policy) sent ->
    id = identity item
    /\ beingDeleted item = false
    /\ deletingDependents item = false
    /\ exists latest dangling waiting st2,
        getObject E (calls st) (identity item) = (Some latest, None)
        /\ GetUID latest = refUID (identity item)
        /\ GetOwnerReferences latest <> []
        /\ classifyReferences E item (GetOwnerReferences latest)
                              (logCall (CallGetObject (identity item)) st)
           = Returns ([], dangling, waiting, None) st2
        /\ (policy = v1.DeletePropagationForeground ->
            waiting <> [] /\ dependents item <> []).
Proof.
  intros E item st st' err sent id policy.
  unfold processItem.
  destruct (beingDeleted item && negb (deletingDependents item)) eqn:Hguard.
  { intro H. injection H as _ <-. intros Hs Hin. exfalso.
    rewrite <- app_nil_r in Hs at 1. apply app_inv_head in Hs. subst sent.
    exact Hin. }
  unfold bind at 1. unfold request at 1.
  destruct (getObject E (calls st) (identity item)) as [latest gerr] eqn:Hget. simpl.
  assert (Hquiet : forall (s : State) tail,
             calls s = calls st ++ sent ->
             calls s = calls st ++ [CallGetObject (identity item)] ++ tail ->
             (forall i p, ~ In (CallDeleteObject i p) tail) ->
             In (CallDeleteObject id policy) sent -> False).
  { intros s tail Hs Hc Hno Hin.
    eapply (delete_in_sent _ [CallGetObject (identity item)] tail) in Hin;
      [| exact Hc | reflexivity | exact Hs].
    exact (Hno _ _ Hin). }
  assert (Hnil : forall i p, ~ In (CallDeleteObject i p) []) by (intros i p []).
  destruct gerr as [gerr|].
  { destruct (errors.IsNotFound gerr); run_monad; intro H; injection H as _ <-;
      intros Hs Hin; exfalso; apply (Hquiet _ [] Hs eq_refl Hnil Hin). }
  destruct latest as [latest|]; [|discriminate].
  destruct (negb (String.eqb (GetUID latest) (refUID (identity item)))) eqn:Huid.
  { run_monad. intro H. injection H as _ <-. intros Hs Hin. exfalso.
    apply (Hquiet _ [] Hs eq_refl Hnil Hin). }
  apply negb_false_iff, String.eqb_eq in Huid.
  destruct (deletingDependents item) eqn:Hdd.
  { unfold processDeletingDependentsItem.
    destruct (List.length (blockingDependents E item) =? 0); run_monad;
      intro H; injection H as _ <-; intros Hs Hin; exfalso.
    - apply (Hquiet _ [CallRemoveFinalizer item v1.FinalizerDeleteDependents] Hs);
        [simpl; now rewrite <- app_assoc | | exact Hin].
      intros i p [Hd|[]]. discriminate.
    - apply (Hquiet _ [] Hs eq_refl Hnil Hin). }
  rewrite andb_true_r in Hguard.
  cbv zeta.
  destruct (List.length (GetOwnerReferences latest) =? 0) eqn:Hrefs.
  { run_monad. intro H. injection H as _ <-. intros Hs Hin. exfalso.
    apply (Hquiet _ [] Hs eq_refl Hnil Hin). }
  assert (Hrefs' : GetOwnerReferences latest <> [])
    by (intro Hn; rewrite Hn in Hrefs; discriminate).
  unfold bind at 1.
  destruct (classifyReferences E item (GetOwnerReferences latest) _)
    as [cl st2|] eqn:Hcl; [|discriminate].
  pose proof Hcl as Hframe.
  apply classifyFrom_frame in Hframe as [_ [_ [_ [_ [reads2 [Hc2 [Hr2 _]]]]]]].
  rewrite calls_logCall in Hc2.
  assert (Htail : forall (s : State) tail,
             calls s = calls st ++ sent ->
             calls s = calls st2 ++ tail ->
             In (CallDeleteObject id policy) sent ->
             In (CallDeleteObject id policy) tail).
  { intros s tail Hs Hc Hin.
    eapply (delete_in_sent _ ([CallGetObject (identity item)] ++ reads2) tail);
      [| | exact Hs | exact Hin].
    - rewrite Hc, Hc2. now rewrite <- !app_assoc.
    - simpl. exact Hr2. }
  destruct cl as [[[solid dangling] waiting] cerr].
  destruct cerr as [cerr|].
  { run_monad. intro H. injection H as _ <-. intros Hs Hin. exfalso.
    apply (Htail st2 [] Hs) in Hin; [exact Hin | now rewrite app_nil_r]. }
  destruct (negb (List.length solid =? 0)) eqn:Hsolid.
  { run_monad. intro H. injection H as _ <-. intros Hs Hin. exfalso.
    apply (Htail _ [_] Hs eq_refl) in Hin.
    destruct Hin as [Hd|[]]. discriminate. }
  apply negb_false_iff, length_zero_nil in Hsolid. subst solid.
  destruct (negb (List.length waiting =? 0) && negb (List.length (dependents item) =? 0))
    eqn:Hcond.
  - apply andb_prop in Hcond as [Hw Hdeps].
    assert (Hw' : waiting <> [])
      by (intro Hn; rewrite Hn in Hw; discriminate).
    assert (Hdeps' : dependents item <> [])
      by (intro Hn; rewrite Hn in Hdeps; discriminate).
    assert (Hgrounds : forall i p,
               In (CallDeleteObject i p)
                  [CallDeleteObject (identity item) v1.DeletePropagationForeground] ->
               i = identity item
               /\ beingDeleted item = false
               /\ false = false
               /\ exists latest0 dangling0 waiting0 st0,
                   (Some latest, @None error) = (Some latest0, None)
                   /\ GetUID latest0 = refUID (identity item)
                   /\ GetOwnerReferences latest0 <> []
                   /\ classifyReferences E item (GetOwnerReferences latest0)
                                         (logCall (CallGetObject (identity item)) st)
                      = Returns ([], dangling0, waiting0, None) st0
                   /\ (p = v1.DeletePropagationForeground ->
                       waiting0 <> [] /\ dependents item <> [])).
    { intros i p [Hd|[]]. injection Hd as <- <-.
      repeat split; try assumption.
      exists latest, dangling, waiting, st2. repeat split; assumption. }
    unfold bind. rewrite unblockOwnerReferences_run.
    destruct (existsb deletingDependents (dependents item)).
    + destruct (patchToUnblockOwnerReferences E item) as [patch|perr].
      * destruct (snd (patchObject E (calls st2) (identity item) patch)) as [perr|];
          run_monad; intro H; injection H as _ <-; intros Hs Hin.
        -- exfalso. apply (Htail _ [_] Hs eq_refl) in Hin.
           destruct Hin as [Hd|[]]. discriminate.
        -- apply (Htail _ [CallPatchObject (identity item) patch;
                           CallDeleteObject (identity item)
                                            v1.DeletePropagationForeground] Hs) in Hin;
             [| simpl; now rewrite <- app_assoc].
           destruct Hin as [Hd|Hin]; [discriminate|]. now apply Hgrounds.
      * run_monad. intro H. injection H as _ <-. intros Hs Hin. exfalso.
        apply (Htail st2 [] Hs) in Hin; [exact Hin | now rewrite app_nil_r].
    + run_monad. intro H. injection H as _ <-. intros Hs Hin.
      apply (Htail _ [_] Hs eq_refl) in Hin. now apply Hgrounds.
  - run_monad. intro H. injection H as _ <-. intros Hs Hin.
    apply (Htail _ [_] Hs eq_refl) in Hin.
    destruct Hin as [Hd|[]]. injection Hd as <- <-.
    repeat split; try assumption.
    exists latest, dangling, waiting, st2. repeat split; try assumption; discriminate.
Qed.

Lemma processItem_deletes_only_without_solid_owner_witness :
  identity Toy.rsBetween = identity Toy.rsBetween
  /\ beingDeleted Toy.rsBetween = false
  /\ deletingDependents Toy.rsBetween = false
  /\ exists latest dangling waiting st2,
      getObject (Toy.cluster [Toy.rsOwned; Toy.depDeleting] [] []) (calls Toy.idle)
                (identity Toy.rsBetween)
      = (Some latest, None)
      /\ GetUID latest = refUID (identity Toy.rsBetween)
      /\ GetOwnerReferences latest <> []
      /\ classifyReferences (Toy.cluster [Toy.rsOwned; Toy.depDeleting] [] [])
                            Toy.rsBetween (GetOwnerReferences latest)
                            (logCall (CallGetObject (identity Toy.rsBetween)) Toy.idle)
         = Returns ([], dangling, waiting, None) st2
      /\ (v1.DeletePropagationForeground = v1.DeletePropagationForeground ->
          waiting <> [] /\ dependents Toy.rsBetween <> []).
Proof.
  apply (processItem_deletes_only_without_solid_owner
           (Toy.cluster [Toy.rsOwned; Toy.depDeleting] [] []) Toy.rsBetween Toy.idle
           (match processItem (Toy.cluster [Toy.rsOwned; Toy.depDeleting] [] [])
                              Toy.rsBetween Toy.idle with
            | Returns _ st' => st'
            | Panics => Toy.idle
            end)
           None
           (calls (match processItem (Toy.cluster [Toy.rsOwned; Toy.depDeleting] [] [])
                                     Toy.rsBetween Toy.idle with
                   | Returns _ st' => st'
                   | Panics => Toy.idle
                   end))).
  - reflexivity.
  - reflexivity.
  - simpl. tauto.
Defined.

(** X8: when the re-fetch of the item fails with an error other than
    NotFound, [processItem] returns that error after the one [Get]: no
    virtual delete event is made and nothing is patched or deleted.  The
    worker then adds the item back to the delete-attempt queue with rate
    limiting and marks it done. *)
Theorem processItem_get_error_is_retried :
  forall (E : Collaborators) (item : node) (st : State)
         (latest : option Unstructured) (err : error),
    beingDeleted item && negb (deletingDependents item) = false ->
    getObject E (calls st) (identity item) = (latest, Some err) ->
    errors.IsNotFound err = false ->
    processItem E item st = Returns (Some err) (logCall (CallGetObject (identity item)) st)
    /\ exists st',
        attemptToDeleteWorker E item false st = Returns tt st'
        /\ attemptToDelete st' = attemptToDelete st ++ [AddRateLimited item; Done item]
        /\ calls st' = calls st ++ [CallGetObject (identity item)]
        /\ graphChanges st' = graphChanges st
        /\ attemptToOrphan st' = attemptToOrphan st
        /\ absentOwnerCache st' = absentOwnerCache st.
Proof.
  intros E item st latest err Hguard Hget Hnf.
  assert (Hrun : processItem E item st
                 = Returns (Some err) (logCall (CallGetObject (identity item)) st)).
  { unfold processItem. rewrite Hguard.
    unfold bind, request. rewrite Hget. simpl. now rewrite Hnf. }
  split; [exact Hrun|].
  unfold attemptToDeleteWorker, bind. rewrite Hrun. unfold modify.
  eexists. split; [reflexivity|]. simpl. rewrite <- app_assoc. repeat split.
Qed.

Lemma processItem_get_error_is_retried_witness :
  processItem (failingCluster (Toy.cluster [Toy.podObject] [] []) None
                              (Some serverTimeout) None)
              Toy.podNode Toy.idle
  = Returns (Some serverTimeout) (logCall (CallGetObject (identity Toy.podNode)) Toy.idle).
Proof.
  apply (processItem_get_error_is_retried
           (failingCluster (Toy.cluster [Toy.podObject] [] []) None
                           (Some serverTimeout) None)
           Toy.podNode Toy.idle None serverTimeout).
  - reflexivity.
  - reflexivity.
  - reflexivity.
Defined.

(** X9: when the classification yields no solid reference, and no waiting
    reference or no dependent of the node, [processItem] deletes the object
    with default propagation, without any patch before, and returns the
    answer of the delete. *)
Theorem processItem_no_solid_owner_default_delete :
  forall (E : Collaborators) (item : node) (st st2 : State) (latest : Unstructured)
         (dangling waiting : list metav1.OwnerReference),
    beingDeleted item = false ->
    deletingDependents item = false ->
    getObject E (calls st) (identity item) = (Some latest, None) ->
    GetUID latest = refUID (identity item) ->
    GetOwnerReferences latest <> [] ->
    classifyReferences E item (GetOwnerReferences latest)
                       (logCall (CallGetObject (identity item)) st)
    = Returns ([], dangling, waiting, None) st2 ->
    waiting = [] \/ dependents item = [] ->
    processItem E item st
    = Returns (deleteObject E (calls st2) (identity item) v1.DeletePropagationDefault)
              (logCall (CallDeleteObject (identity item) v1.DeletePropagationDefault) st2)
    /\ dangling ++ waiting <> [].
Proof.
  intros E item st st2 latest dangling waiting Hbd Hdd Hget Huid Hrefs Hcl Hcase.
  split.
  - rewrite (processItem_classified E item st st2 latest [] dangling waiting
                                    Hbd Hdd Hget Huid Hrefs Hcl).
    simpl.
    assert (Hcond : negb (List.length waiting =? 0)
                    && negb (List.length (dependents item) =? 0) = false).
    { destruct Hcase as [-> | ->]; simpl; [reflexivity | apply andb_false_r]. }
    rewrite Hcond. reflexivity.
  - intro Hnone.
    destruct (GetOwnerReferences latest) as [|r rest] eqn:Hlist;
      [now contradiction Hrefs|].
    pose proof (classifyFrom_covers E item (r :: rest) _ _ _ _ _ _ _ _ Hcl r) as Hcover.
    simpl in Hcover. rewrite Hnone in Hcover. simpl in Hcover. tauto.
Qed.

Lemma processItem_no_solid_owner_default_delete_witness :
  processItem
    (Toy.cluster [{| Toy.loName := "pod"; Toy.loUID := "uid-pod";
                     Toy.loOwnerReferences := [Toy.staleRef];
                     Toy.loDeletionTimestamp := None; Toy.loFinalizers := [] |};
                  Toy.rsObject] [] [])
    Toy.podNode Toy.idle
  = Returns None
            (logCall (CallDeleteObject (identity Toy.podNode) v1.DeletePropagationDefault)
               (match classifyReferences
                        (Toy.cluster [{| Toy.loName := "pod"; Toy.loUID := "uid-pod";
                                         Toy.loOwnerReferences := [Toy.staleRef];
                                         Toy.loDeletionTimestamp := None;
                                         Toy.loFinalizers := [] |};
                                      Toy.rsObject] [] [])
                        Toy.podNode [Toy.staleRef]
                        (logCall (CallGetObject (identity Toy.podNode)) Toy.idle) with
                | Returns _ st2 => st2
                | Panics => Toy.idle
                end))
  /\ [Toy.staleRef] ++ [] <> [].
Proof.
  apply (processItem_no_solid_owner_default_delete
           (Toy.cluster [{| Toy.loName := "pod"; Toy.loUID := "uid-pod";
                            Toy.loOwnerReferences := [Toy.staleRef];
                            Toy.loDeletionTimestamp := None; Toy.loFinalizers := [] |};
                         Toy.rsObject] [] [])
           Toy.podNode Toy.idle _
           {| GetUID := "uid-pod"; GetOwnerReferences := [Toy.staleRef] |}
           [Toy.staleRef] []).
  - reflexivity.
  - reflexivity.
  - reflexivity.
  - reflexivity.
  - discriminate.
  - reflexivity.
  - left. reflexivity.
Defined.

(** X10: an error of the classification is returned by [processItem] as it
    is, and nothing is decided on a partial classification: up to there only
    reads were sent, whatever the lists hold.  The worker then adds the item
    back with rate limiting. *)
Theorem processItem_classification_error_is_retried :
  forall (E : Collaborators) (item : node) (st st2 : State) (latest : Unstructured)
         (solid dangling waiting : list metav1.OwnerReference) (err : error),
    beingDeleted item = false ->
    deletingDependents item = false ->
    getObject E (calls st) (identity item) = (Some latest, None) ->
    GetUID latest = refUID (identity item) ->
    GetOwnerReferences latest <> [] ->
    classifyReferences E item (GetOwnerReferences latest)
                       (logCall (CallGetObject (identity item)) st)
    = Returns (solid, dangling, waiting, Some err) st2 ->
    processItem E item st = Returns (Some err) st2
    /\ (exists reads, calls st2 = calls st ++ reads /\ forallb isRead reads = true)
    /\ exists st',
        attemptToDeleteWorker E item false st = Returns tt st'
        /\ attemptToDelete st' = attemptToDelete st ++ [AddRateLimited item; Done item]
        /\ calls st' = calls st2.
Proof.
  intros E item st st2 latest solid dangling waiting err Hbd Hdd Hget Huid Hrefs Hcl.
  assert (Hrun : processItem E item st = Returns (Some err) st2).
  { unfold processItem. rewrite Hbd, Hdd. simpl.
    unfold bind at 1. unfold request at 1. rewrite Hget. simpl.
    rewrite Huid, String.eqb_refl. simpl.
    rewrite (length_nonzero_cons _ Hrefs).
    unfold bind. rewrite Hcl. reflexivity. }
  apply classifyFrom_frame in Hcl as [Hq [_ [_ [_ [reads [Hc [Hr _]]]]]]].
  rewrite calls_logCall, <- app_assoc in Hc. simpl in Hq.
  split; [exact Hrun|]. split.
  - exists ([CallGetObject (identity item)] ++ reads). split; [exact Hc|exact Hr].
  - unfold attemptToDeleteWorker, bind. rewrite Hrun. unfold modify.
    eexists. split; [reflexivity|]. simpl. rewrite Hq, <- app_assoc. split; reflexivity.
Qed.

Lemma processItem_classification_error_is_retried_witness :
  processItem (failingCluster (Toy.cluster [Toy.podObject; Toy.rsObject] [] [])
                              (Some serverTimeout) None None)
              Toy.podNode Toy.idle
  = Returns (Some serverTimeout)
            (match classifyReferences
                     (failingCluster (Toy.cluster [Toy.podObject; Toy.rsObject] [] [])
                                     (Some serverTimeout) None None)
                     Toy.podNode [Toy.rsRef]
                     (logCall (CallGetObject (identity Toy.podNode)) Toy.idle) with
             | Returns _ st2 => st2
             | Panics => Toy.idle
             end).
Proof.
  apply (processItem_classification_error_is_retried
           (failingCluster (Toy.cluster [Toy.podObject; Toy.rsObject] [] [])
                           (Some serverTimeout) None None)
           Toy.podNode Toy.idle _ (Toy.toUnstructured Toy.podObject) [] [] []
           serverTimeout).
  - reflexivity.
  - reflexivity.
  - reflexivity.
  - reflexivity.
  - discriminate.
  - reflexivity.
Defined.

(** ** The orphan worker: what it sends and what it leaves *)

Section Orphaning.

Variable E : Collaborators.

(** The loop patches the dependents one by one, whatever the answers. *)
Lemma orphanEach_calls (owner : objectReference) (dependents : list node) :
  forall failedDependents errorsSlice st res st',
    orphanEach E owner dependents failedDependents errorsSlice st = Returns res st' ->
    calls st' = calls st ++ map (orphanPatch E owner) dependents
    /\ absentOwnerCache st' = absentOwnerCache st
    /\ attemptToDelete st' = attemptToDelete st
    /\ attemptToOrphan st' = attemptToOrphan st
    /\ graphChanges st' = graphChanges st
    /\ monitors st' = monitors st.
Proof.
  induction dependents as [|dependent rest IH]; intros failedDependents errorsSlice st res st'.
  - simpl. intro H. injection H as _ <-. rewrite app_nil_r. repeat split.
  - cbn [orphanEach]. unfold bind, request.
    assert (Hnext : forall es,
               orphanEach E owner rest failedDependents es
                          (logCall (orphanPatch E owner dependent) st)
               = Returns res st' ->
               calls st' = calls st ++ map (orphanPatch E owner) (dependent :: rest)
               /\ absentOwnerCache st' = absentOwnerCache st
               /\ attemptToDelete st' = attemptToDelete st
               /\ attemptToOrphan st' = attemptToOrphan st
               /\ graphChanges st' = graphChanges st
               /\ monitors st' = monitors st).
    { intros es H. apply IH in H as [Hc [H1 [H2 [H3 [H4 H5]]]]].
      repeat split; try assumption.
      rewrite Hc, calls_logCall. simpl. now rewrite <- app_assoc. }
    unfold orphanPatch in Hnext.
    destruct (snd (patchObject E (calls st) (identity dependent) _)) as [err|];
      [destruct (negb (errors.IsNotFound err))|]; apply Hnext.
Qed.

End Orphaning.

(** X11: [orhpanDependents] sends exactly one patch to each dependent, in
    the order given, each built by [deleteOwnerRefPatch] from the
    dependent's UID as precondition and the owner's UID, and goes on to the
    next dependent whatever a patch answered.  It sends nothing else and
    changes neither the queues nor the absent-owner cache. *)
Theorem orhpanDependents_patches_every_dependent :
  forall (E : Collaborators) (owner : objectReference) (dependents : list node)
         (st : State),
    exists err st',
      orhpanDependents E owner dependents st = Returns err st'
      /\ calls st' = calls st ++ map (orphanPatch E owner) dependents
      /\ absentOwnerCache st' = absentOwnerCache st
      /\ attemptToDelete st' = attemptToDelete st
      /\ attemptToOrphan st' = attemptToOrphan st
      /\ graphChanges st' = graphChanges st.
Proof.
  intros E owner dependents st.
  unfold orhpanDependents, bind.
  destruct (orphanEach_failedDependents E owner dependents [] [] st) as [es [st' Heq]].
  rewrite Heq. simpl.
  apply orphanEach_calls in Heq as [Hc [H1 [H2 [H3 [H4 _]]]]].
  exists None, st'. repeat split; assumption.
Qed.

(** X12: the orphan worker always comes back: it marks the item done as
    its last operation on the queue, after adding it back with rate limiting
    at most once, and it touches neither the other queues nor the
    absent-owner cache.  When the removal of the "orphan" finalizer answers
    with an error after the dependents were patched, the item is added
    back.  A worker told to quit does nothing. *)
Theorem attemptToOrphanWorker_marks_done :
  forall (E : Collaborators) (item : node) (st : State),
    attemptToOrphanWorker E item true st = Returns tt st
    /\ exists st' ops,
        attemptToOrphanWorker E item false st = Returns tt st'
        /\ attemptToOrphan st' = attemptToOrphan st ++ ops ++ [Done item]
        /\ (ops = [] \/ ops = [AddRateLimited item])
        /\ (forall err,
               removeFinalizer E (calls st ++ map (orphanPatch E (identity item))
                                                  (dependents item))
                               item v1.FinalizerOrphanDependents
               = Some err ->
               ops = [AddRateLimited item])
        /\ attemptToDelete st' = attemptToDelete st
        /\ graphChanges st' = graphChanges st
        /\ absentOwnerCache st' = absentOwnerCache st.
Proof.
  intros E item st. split; [reflexivity|].
  unfold attemptToOrphanWorker, orhpanDependents, bind. cbv zeta.
  destruct (orphanEach_failedDependents E (identity item) (dependents item) [] [] st)
    as [es [st1 Heq]].
  rewrite Heq. simpl.
  apply orphanEach_calls in Heq as [Hc [H1 [H2 [H3 [H4 _]]]]].
  unfold request, modify. rewrite Hc.
  destruct (removeFinalizer E _ item v1.FinalizerOrphanDependents) as [err|] eqn:Hrf.
  - exists (setAttemptToOrphan
              ((attemptToOrphan st1 ++ [AddRateLimited item]) ++ [Done item])
              (setAttemptToOrphan
                 (attemptToOrphan st1 ++ [AddRateLimited item])
                 (logCall (CallRemoveFinalizer item v1.FinalizerOrphanDependents) st1))),
           [AddRateLimited item].
    simpl. rewrite H3, <- app_assoc. repeat split; auto.
  - exists (setAttemptToOrphan
              (attemptToOrphan st1 ++ [Done item])
              (logCall (CallRemoveFinalizer item v1.FinalizerOrphanDependents) st1)),
           [].
    simpl. rewrite H3. repeat split; auto. intros err Herr. discriminate.
Qed.

Lemma attemptToOrphanWorker_marks_done_witness :
  exists st',
    attemptToOrphanWorker
      (failingCluster (Toy.cluster [Toy.podObject; Toy.rsObject] [] [])
                      None None (Some serverTimeout))
      Toy.rsNode false Toy.idle
    = Returns tt st'
    /\ attemptToOrphan st' = [AddRateLimited Toy.rsNode; Done Toy.rsNode].
Proof.
  destruct (proj2 (attemptToOrphanWorker_marks_done
                     (failingCluster (Toy.cluster [Toy.podObject; Toy.rsObject] [] [])
                                     None None (Some serverTimeout))
                     Toy.rsNode Toy.idle))
    as [st' [ops [Hrun [Hq [_ [Hops _]]]]]].
  exists st'. split; [exact Hrun|].
  rewrite Hq, (Hops serverTimeout eq_refl). reflexivity.
Defined.

(** ** NewGarbageCollector: the collector it returns *)

Section Construction.

Variable E : Collaborators.

Lemma monitorsFor_builds (deletableResources : list schema.GroupVersionResource) :
  forall gc gc',
    monitorsFor E deletableResources gc = (gc', None) ->
    exists added asked,
      monitors gc' = monitors gc ++ added
      /\ calls gc' = calls gc ++ asked
      /\ forallb isRead asked = true
      /\ List.length asked = 2 * List.length added
      /\ Forall (fun m => exists h, KindFor E h (monitorResource m) = inl (monitorKind m))
                added
      /\ absentOwnerCache gc' = absentOwnerCache gc
      /\ attemptToDelete gc' = attemptToDelete gc
      /\ attemptToOrphan gc' = attemptToOrphan gc
      /\ graphChanges gc' = graphChanges gc.
Proof.
  induction deletableResources as [|r rest IH]; intros gc gc'; simpl.
  - intro H. injection H as <-. exists [], []. rewrite !app_nil_r.
    repeat split. constructor.
  - destruct (isIgnored r); [apply IH|].
    destruct (KindFor E (calls gc) r) as [kind|err] eqn:Hkind; [|discriminate].
    unfold controllerFor.
    destruct (MetaOnlyClientForGroupVersionKind E _ kind) as [err|]; [discriminate|].
    intro H. apply IH in H
      as [added [asked [Hm [Hc [Hr [Hl [Hk [H1 [H2 [H3 H4]]]]]]]]]].
    exists ({| monitorResource := r; monitorKind := kind |} :: added),
           ([CallKindFor r; CallMetaOnlyClientForGroupVersionKind kind] ++ asked).
    simpl in *. repeat split; try assumption.
    + rewrite Hm. now rewrite <- app_assoc.
    + rewrite Hc. now rewrite <- !app_assoc.
    + rewrite Hl. lia.
    + constructor; [|exact Hk]. exists (calls gc). exact Hkind.
Qed.

End Construction.

(** X13: a collector returned by [NewGarbageCollector] is fresh: its three
    queues are empty and its absent-owner cache is empty with room for 500
    UIDs.  To build it the constructor sent two requests for each monitor,
    a [KindFor] and a request for a metadata-only client, and nothing that
    writes; and each monitor stamps the kind that the REST mapper answered
    for the resource it watches. *)
Theorem NewGarbageCollector_fresh :
  forall (E : Collaborators) (deletableResources : list schema.GroupVersionResource)
         (gc : State) (err : option error),
    NewGarbageCollector E deletableResources = (Some gc, err) ->
    err = None
    /\ attemptToDelete gc = []
    /\ attemptToOrphan gc = []
    /\ graphChanges gc = []
    /\ absentOwnerCache gc = UIDCache.NewUIDCache 500
    /\ forallb isRead (calls gc) = true
    /\ List.length (calls gc) = 2 * List.length (monitors gc)
    /\ Forall (fun m => exists h, KindFor E h (monitorResource m) = inl (monitorKind m))
              (monitors gc).
Proof.
  intros E deletableResources gc err. unfold NewGarbageCollector.
  destruct (monitorsFor E deletableResources newGarbageCollector) as [gc' [e|]] eqn:Hm;
    [discriminate|].
  intro H. injection H as <- <-.
  apply monitorsFor_builds in Hm
    as [added [asked [Hm [Hc [Hr [Hl [Hk [H1 [H2 [H3 H4]]]]]]]]]].
  simpl in Hm, Hc, H1, H2, H3, H4. rewrite Hm, Hc. repeat split; assumption.
Qed.

Lemma NewGarbageCollector_fresh_witness :
  exists gc,
    NewGarbageCollector (Toy.cluster [] [] []) [Toy.events; Toy.pods; Toy.widgets]
    = (Some gc, None)
    /\ attemptToDelete gc = []
    /\ absentOwnerCache gc = UIDCache.NewUIDCache 500
    /\ forallb isRead (calls gc) = true
    /\ List.length (calls gc) = 2 * List.length (monitors gc).
Proof.
  eexists. split; [lazy; reflexivity|].
  destruct (NewGarbageCollector_fresh
              (Toy.cluster [] [] []) [Toy.events; Toy.pods; Toy.widgets] _ None eq_refl)
    as [_ [Hd [_ [_ [Hcache [Hreads [Hlen _]]]]]]].
  repeat split; assumption.
Defined.

(** ** Smaller functions *)

(** X14: [GraphHasUID] answers true exactly when at least one of the UIDs
    given is in the graph's index, so false for the empty list; over two
    lists put together it is the disjunction of the answers. *)
Theorem GraphHasUID_any :
  forall (Read : types.UID -> option node) (UIDs more : list types.UID),
    (GraphHasUID Read UIDs = true <-> exists u, In u UIDs /\ Read u <> None)
    /\ GraphHasUID Read (UIDs ++ more) = GraphHasUID Read UIDs || GraphHasUID Read more.
Proof.
  intros Read UIDs more. split.
  - induction UIDs as [|u rest IH]; simpl.
    + split; [discriminate|]. intros [u [[] _]].
    + destruct (Read u) as [n|] eqn:Hu.
      * split; [|reflexivity]. intros _. exists u. split; [now left|].
        rewrite Hu. discriminate.
      * rewrite IH. split.
        -- intros [v [Hin Hv]]. exists v. split; [now right|exact Hv].
        -- intros [v [[Heq|Hin] Hv]].
           ++ subst v. now contradiction Hv.
           ++ exists v. split; assumption.
  - induction UIDs as [|u rest IH]; simpl; [reflexivity|].
    destruct (Read u); [reflexivity|exact IH].
Qed.

(** X15: the scan of the dependents in the "waiting" case gives the same
    result in whatever order the map of dependents is visited. *)
Theorem unblockOwnerReferences_order_irrelevant :
  forall (E : Collaborators) (item : node) (deps deps' : list node) (st : State),
    Permutation deps deps' ->
    unblockOwnerReferences E item deps st = unblockOwnerReferences E item deps' st.
Proof.
  intros E item deps deps' st Hperm.
  rewrite !unblockOwnerReferences_run.
  assert (Hsame : existsb deletingDependents deps = existsb deletingDependents deps').
  { induction Hperm as [|x l l' _ IH|x y l|l l' l'' _ IH1 _ IH2]; simpl.
    - reflexivity.
    - now rewrite IH.
    - now rewrite !orb_assoc, (orb_comm (deletingDependents y)).
    - now rewrite IH1. }
  now rewrite Hsame.
Qed.

Lemma unblockOwnerReferences_order_irrelevant_witness :
  unblockOwnerReferences (Toy.cluster [Toy.rsOwned] [] []) Toy.rsBetween
                         [Toy.podNode; Toy.podCascading] Toy.idle
  = unblockOwnerReferences (Toy.cluster [Toy.rsOwned] [] []) Toy.rsBetween
                           [Toy.podCascading; Toy.podNode] Toy.idle.
Proof.
  apply (unblockOwnerReferences_order_irrelevant
           (Toy.cluster [Toy.rsOwned] [] []) Toy.rsBetween
           [Toy.podNode; Toy.podCascading] [Toy.podCascading; Toy.podNode] Toy.idle).
  apply perm_swap.
Defined.

(** ** The handlers of a monitor *)


